(** * Landslide-risk backend: a shallow embedding of [main.py]

    The development follows the layout of the Flask module: the Python
    values and conversions the handlers rely on ([float], [int], the
    [.2f] format), the start-up globals ([soil_gdf], [slope_tif],
    [model], [scaler]), then [convert_coords], [get_soil_type],
    [get_slope], [get_geo_data] and [predict], and finally the properties
    of the specification.

    Python floats are IEEE binary64 numbers; they are modelled by the
    inductive [spec_float] of the standard library at precision 53, whose
    comparisons and arithmetic are executable. *)

From Stdlib Require Import ZArith List String Ascii Bool Lia.
From Stdlib Require Import Floats.SpecFloat.
From stdpp Require Import base option list strings gmap pretty.

#[local] Set Warnings "-register-all".

Local Open Scope string_scope.
Local Open Scope Z_scope.

(** ** Binary64 floats *)

Module F64.

Definition prec : Z := 53.
Definition emax : Z := 1024.

Definition float : Type := spec_float.

Definition nan : float := S754_nan.
Definition inf : float := S754_infinity false.
Definition zero : float := S754_zero false.

(** The integer [n] rounded to the nearest binary64 (ties to even);
    an integer beyond the largest finite float rounds to infinity. *)
Definition of_Z (n : Z) : float := binary_normalize prec emax n 0 false.

Definition mul (a b : float) : float := SFmul prec emax a b.
Definition sub (a b : float) : float := SFsub prec emax a b.

Definition eqb (a b : float) : bool := SFeqb a b.
Definition ltb (a b : float) : bool := SFltb a b.
Definition leb (a b : float) : bool := SFleb a b.

Definition is_nan (a : float) : bool :=
  match a with S754_nan => true | _ => false end.

Definition is_finite (a : float) : bool :=
  match a with S754_zero _ | S754_finite _ _ _ => true | _ => false end.

(** [m * 10^e10] with sign [neg], correctly rounded: the value of a
    decimal literal. *)
Definition of_decimal (neg : bool) (m : N) (e10 : Z) : float :=
  match m with
  | N0 => S754_zero neg
  | Npos p =>
      if 0 <=? e10
      then binary_round prec emax neg (p * Z.to_pos (10 ^ e10))%positive 0
      else
        let '(q, e, l) :=
          SFdiv_core_binary prec emax (Zpos p) 0 (10 ^ (- e10)) 0 in
        binary_round_aux prec emax neg q e l
  end.

(** Truncation toward zero of a finite float ([int(x)], [math.trunc]). *)
Definition trunc (s : bool) (m : positive) (e : Z) : Z :=
  cond_Zopp s (Z.shiftl (Zpos m) e).

(** [math.floor] of a finite float; [None] on nan and the infinities. *)
Definition floor (a : float) : option Z :=
  match a with
  | S754_zero _ => Some 0
  | S754_finite s m e => Some (Z.shiftl (cond_Zopp s (Zpos m)) e)
  | _ => None
  end.

End F64.

Abbreviation float := F64.float.

(** ** Python exceptions and results *)

Inductive exn : Type :=
| ValueError
| TypeError
| OverflowError
| IndexError
| AttributeError
| BadRequest
| OtherError (name : string).

Inductive result (A : Type) : Type :=
| Ok (a : A)
| Raise (e : exn).

Arguments Ok {A} a.
Arguments Raise {A} e.

#[global] Instance result_ret : MRet result := fun _ a => Ok a.
#[global] Instance result_bind : MBind result := fun _ _ f m =>
  match m with
  | Ok a => f a
  | Raise e => Raise e
  end.

(** [try: body except Exception as e: handler e]. *)
Definition try_except {A} (body : result A) (handler : exn -> result A)
  : result A :=
  match body with
  | Ok a => Ok a
  | Raise e => handler e
  end.

Definition is_ok {A} (r : result A) : bool :=
  match r with Ok _ => true | Raise _ => false end.

(** ** Python values *)

(** What [request.json] and the attribute table of the shapefile can
    hold. *)
Inductive pyval : Type :=
| PNone
| PBool (b : bool)
| PInt (n : Z)
| PFloat (f : float)
| PStr (s : string)
| PList (l : list pyval)
| PDict (d : list (string * pyval)).

(** ** Numeric literals in strings: [float(str)] and [int(str)] *)

Module Literal.

Local Open Scope char_scope.

(** White space for [strip]: the space, the controls 9 to 13 and the
    separators 28 to 31. *)
Definition is_space (c : ascii) : bool :=
  match c with
  | " " | "009" | "010" | "011" | "012" | "013"
  | "028" | "029" | "030" | "031" => true
  | _ => false
  end.

Definition digit_of (c : ascii) : option N :=
  let n := N_of_ascii c in
  if ((48 <=? n) && (n <=? 57))%N then Some (n - 48)%N else None.

Definition lower (c : ascii) : ascii :=
  let n := N_of_ascii c in
  if ((65 <=? n) && (n <=? 90))%N then ascii_of_N (n + 32) else c.

Fixpoint lstrip (l : list ascii) : list ascii :=
  match l with
  | c :: l' => if is_space c then lstrip l' else l
  | [] => []
  end.

Definition strip (l : list ascii) : list ascii :=
  rev (lstrip (rev (lstrip l))).

(** After one digit: [(["_"] digit)*], the longest match. Returns the
    digits read and the rest of the input. *)
Fixpoint digits_tail (l : list ascii) : list N * list ascii :=
  match l with
  | c :: l' =>
      match digit_of c with
      | Some d => let '(ds, r) := digits_tail l' in (d :: ds, r)
      | None =>
          if Ascii.eqb c "_" then
            match l' with
            | c' :: l'' =>
                match digit_of c' with
                | Some d => let '(ds, r) := digits_tail l'' in (d :: ds, r)
                | None => ([], l)
                end
            | [] => ([], l)
            end
          else ([], l)
      end
  | [] => ([], [])
  end.

(** [digitpart ::= digit (["_"] digit)*] *)
Definition digitpart (l : list ascii) : option (list N * list ascii) :=
  match l with
  | c :: l' =>
      match digit_of c with
      | Some d => let '(ds, r) := digits_tail l' in Some (d :: ds, r)
      | None => None
      end
  | [] => None
  end.

Definition value_of (ds : list N) : N :=
  fold_left (fun acc d => (10 * acc + d)%N) ds 0%N.

(** An optional sign; [true] is minus. *)
Definition sign (l : list ascii) : bool * list ascii :=
  match l with
  | "-" :: l' => (true, l')
  | "+" :: l' => (false, l')
  | _ => (false, l)
  end.

(** [exponent ::= ("e" | "E") [sign] digitpart], up to the end of the
    input; the empty input is the absent exponent. *)
Definition exponent (l : list ascii) : option Z :=
  match l with
  | [] => Some 0%Z
  | c :: l' =>
      if Ascii.eqb (lower c) "e" then
        let '(neg, l'') := sign l' in
        match digitpart l'' with
        | Some (ds, []) => Some (cond_Zopp neg (Z.of_N (value_of ds)))
        | _ => None
        end
      else None
  end.

(** [number ::= [digitpart] "." digitpart | digitpart ["."]], followed
    by the exponent. Returns the decimal mantissa and exponent. *)
Definition floatnumber (l : list ascii) : option (N * Z) :=
  match digitpart l with
  | Some (ip, "." :: r) =>
      match digitpart r with
      | Some (fp, r') =>
          e ← exponent r';
          Some (value_of (ip ++ fp), (e - Z.of_nat (length fp))%Z)
      | None => e ← exponent r; Some (value_of ip, e)
      end
  | Some (ip, r) => e ← exponent r; Some (value_of ip, e)
  | None =>
      match l with
      | "." :: r =>
          match digitpart r with
          | Some (fp, r') =>
              e ← exponent r';
              Some (value_of fp, (e - Z.of_nat (length fp))%Z)
          | None => None
          end
      | _ => None
      end
  end.

Definition lowered (l : list ascii) : string :=
  string_of_list_ascii (map lower l).

(** The float a string denotes for [float()], if any: surrounding
    white space, a sign, then a decimal number, [inf], [infinity] or
    [nan] in any letter case. *)
Definition parse_float (s : string) : option float :=
  let '(neg, body) := sign (strip (list_ascii_of_string s)) in
  let w := lowered body in
  if (String.eqb w "inf" || String.eqb w "infinity")%bool
  then Some (S754_infinity neg)
  else if String.eqb w "nan" then Some S754_nan
  else '(m, e) ← floatnumber body; Some (F64.of_decimal neg m e).

(** The integer a string denotes for [int()] in base ten, if any. *)
Definition parse_int (s : string) : option Z :=
  let '(neg, body) := sign (strip (list_ascii_of_string s)) in
  match digitpart body with
  | Some (ds, []) => Some (cond_Zopp neg (Z.of_N (value_of ds)))
  | _ => None
  end.

End Literal.

(** ** The built-ins [float] and [int] *)

(** [float(v)] *)
Definition py_float (v : pyval) : result float :=
  match v with
  | PFloat f => Ok f
  | PInt n =>
      let f := F64.of_Z n in
      if F64.is_finite f then Ok f else Raise OverflowError
  | PBool b => Ok (F64.of_Z (if b then 1 else 0))
  | PStr s =>
      match Literal.parse_float s with
      | Some f => Ok f
      | None => Raise ValueError
      end
  | PNone | PList _ | PDict _ => Raise TypeError
  end.

(** [int(v)] *)
Definition py_int (v : pyval) : result Z :=
  match v with
  | PInt n => Ok n
  | PBool b => Ok (if b then 1 else 0)
  | PFloat f =>
      match f with
      | S754_zero _ => Ok 0
      | S754_finite s m e => Ok (F64.trunc s m e)
      | S754_nan => Raise ValueError
      | S754_infinity _ => Raise OverflowError
      end
  | PStr s =>
      match Literal.parse_int s with
      | Some n => Ok n
      | None => Raise ValueError
      end
  | PNone | PList _ | PDict _ => Raise TypeError
  end.

(** ** Formatting: [f"{x:.2f}"] *)

Module Format.

(** [num / den] rounded to the nearest integer, ties to even
    ([0 <= num], [0 < den]). *)
Definition round_half_even (num den : Z) : Z :=
  let q := num / den in
  match Z.compare (2 * (num mod den)) den with
  | Lt => q
  | Gt => q + 1
  | Eq => if Z.even q then q else q + 1
  end.

(** The number of hundredths nearest to [m * 2^e]. *)
Definition hundredths (m : positive) (e : Z) : Z :=
  if 0 <=? e then Zpos m * 2 ^ e * 100
  else round_half_even (Zpos m * 100) (2 ^ (- e)).

Definition two_digits (k : Z) : string :=
  (if k <? 10 then "0" else "") ++ pretty k.

(** A count of hundredths written with two decimals. *)
Definition fixed2 (n : Z) : string :=
  pretty (n / 100) ++ "." ++ two_digits (n mod 100).

Definition minus (s : bool) : string := if s then "-" else "".

(** [format(x, ".2f")]: the exact binary value of [x] rounded to two
    decimals, ties to even. *)
Definition format_2f (x : float) : string :=
  match x with
  | S754_nan => "nan"
  | S754_infinity s => minus s ++ "inf"
  | S754_zero s => minus s ++ "0.00"
  | S754_finite s m e => minus s ++ fixed2 (hundredths m e)
  end.

End Format.

(** ** The two reductions of [predict]: [numpy.argmax] and [max] *)

(** The scan of [numpy.argmax] over a float array: the running maximum
    [best] at index [best_i] is replaced by a later entry [x] at index
    [i] when [not (x <= best)], and the scan stops at the first nan. *)
Fixpoint argmax_from (best : float) (best_i i : nat) (l : list float) : nat :=
  match l with
  | [] => best_i
  | x :: l' =>
      if F64.is_nan best then best_i
      else if negb (F64.leb x best) then argmax_from x i (S i) l'
      else argmax_from best best_i (S i) l'
  end.

Definition np_argmax (l : list float) : result nat :=
  match l with
  | [] => Raise ValueError
  | x :: l' => Ok (argmax_from x 0 1 l')
  end.

(** The built-in [max] of an iterable: a later item replaces the current
    maximum when [item > maximum]. *)
Definition py_max (l : list float) : result float :=
  match l with
  | [] => Raise ValueError
  | x :: l' => Ok (fold_left (fun best y => if F64.ltb best y then y else best) l' x)
  end.

(** ** Geometry: points, bounding boxes and the polygon interface *)

Record Point : Type := mkPoint { pt_x : float; pt_y : float }.

Record BBox : Type := mkBBox
  { minx : float; miny : float; maxx : float; maxy : float }.

(** [point.bounds]: the degenerate box at the point. *)
Definition point_bounds (p : Point) : BBox :=
  mkBBox (pt_x p) (pt_y p) (pt_x p) (pt_y p).

(** [point.is_valid]: both coordinates are finite numbers. *)
Definition point_is_valid (p : Point) : bool :=
  F64.is_finite (pt_x p) && F64.is_finite (pt_y p).

Definition bbox_intersects (a b : BBox) : bool :=
  F64.leb (minx a) (maxx b) && F64.leb (minx b) (maxx a) &&
  F64.leb (miny a) (maxy b) && F64.leb (miny b) (maxy a).

(** What [get_soil_type] asks of a shapely geometry: its bounds, and
    whether it intersects a point (interior or boundary). A geometry
    lies within its bounds. *)
Class Geometry (G : Type) : Type := {
  geom_bounds : G -> BBox;
  geom_intersects : G -> Point -> bool;
  geom_intersects_bounds : forall g p,
    geom_intersects g p = true ->
    bbox_intersects (geom_bounds g) (point_bounds p) = true
}.

(** Axis-parallel rectangles, the polygons of the examples. *)
Record Rect : Type := mkRect { rect_box : BBox }.

Definition rect_intersects (r : Rect) (p : Point) : bool :=
  bbox_intersects (rect_box r) (point_bounds p).

#[global] Instance rect_geometry : Geometry Rect := {
  geom_bounds := rect_box;
  geom_intersects := rect_intersects;
  geom_intersects_bounds := fun _ _ H => H
}.

(** ** The soil GeoDataFrame and its spatial index *)

Section GeoDataFrame.

Context {G : Type} `{Geometry G}.

(** A row: the geometry and the attribute columns. *)
Definition row : Type := G * gmap string pyval.

(** [gpd.read_file] keeps the features in file order in [gdf_rows].
    [gdf_sindex] is the bounding-box tree built by [soil_gdf.sindex]:
    its entries pair a box with the position of the row it was built
    from, listed in the order in which a query of the tree visits
    them. *)
Record GeoDataFrame : Type := mkGeoDataFrame {
  gdf_rows : list row;
  gdf_sindex : list (BBox * nat)
}.

(** The entries the index holds for a frame, in file order. *)
Definition sindex_entries (rows : list row) : list (BBox * nat) :=
  imap (fun i r => (geom_bounds (fst r), i)) rows.

(** The index of a frame was built from its geometry column: it holds
    exactly one entry per row, in some order. *)
Definition sindex_built (gdf : GeoDataFrame) : Prop :=
  Permutation (gdf_sindex gdf) (sindex_entries (gdf_rows gdf)).

(** The index visits its entries in file order. *)
Definition sindex_in_file_order (gdf : GeoDataFrame) : Prop :=
  gdf_sindex gdf = sindex_entries (gdf_rows gdf).

(** An index entry is sound for a frame when it names a row of the
    frame together with the bounds of its geometry. *)
Definition entry_sound (rows : list row) (e : BBox * nat) : Prop :=
  exists r, rows !! snd e = Some r /\ fst e = geom_bounds (fst r).

(** [sindex.intersection(bounds)]: the positions of the entries whose
    box intersects [bounds], in visiting order. *)
Definition sindex_intersection (sindex : list (BBox * nat)) (bounds : BBox)
  : list nat :=
  map snd (List.filter (fun e => bbox_intersects (fst e) bounds) sindex).

(** [df.iloc[positions]]: the rows at the given positions, in the
    order of [positions]. *)
Fixpoint iloc (rows : list row) (positions : list nat) : result (list row) :=
  match positions with
  | [] => Ok []
  | i :: positions' =>
      match rows !! i with
      | Some r => rs ← iloc rows positions'; Ok (r :: rs)
      | None => Raise IndexError
      end
  end.

(** [series.get(key, default)] on a row. *)
Definition series_get (r : row) (key : string) (default : pyval) : pyval :=
  match snd r !! key with
  | Some v => v
  | None => default
  end.

(** [get_soil_type(lon, lat)], with the global [soil_gdf] as first
    argument. *)
Definition get_soil_type (soil_gdf : option GeoDataFrame) (lon lat : float)
  : result pyval :=
  match soil_gdf with
  | None => Ok (PStr "Error: Shapefile not loaded")
  | Some gdf =>
      let point := mkPoint lon lat in
      if negb (point_is_valid point)
      then Ok (PStr "Error: Invalid coordinates for soil lookup")
      else
        try_except
          (let possible_matches_index :=
             sindex_intersection (gdf_sindex gdf) (point_bounds point) in
           possible_matches ← iloc (gdf_rows gdf) possible_matches_index;
           let precise_matches :=
             List.filter (fun r => geom_intersects (fst r) point)
               possible_matches in
           match precise_matches with
           | r :: _ => Ok (series_get r "SNUM" (PStr "Unknown"))
           | [] => Ok (PStr "Unknown")
           end)
          (fun _ => Ok (PStr "Error during processing"))
  end.

(** The attribute reported for a match, or for none. *)
Definition attribute_of (m : option row) : pyval :=
  match m with
  | Some r => series_get r "SNUM" (PStr "Unknown")
  | None => PStr "Unknown"
  end.

(** The rows in the order in which the index visits them, and the
    first of them that intersects a point. *)
Definition visit_order (gdf : GeoDataFrame) : list row :=
  omap (fun e => gdf_rows gdf !! snd e) (gdf_sindex gdf).

Definition first_visited_match (gdf : GeoDataFrame) (p : Point) : option row :=
  List.find (fun r => geom_intersects (fst r) p) (visit_order gdf).

(** The lookup as the specification words it: the candidates are
    tried in load order and the first one that contains the point gives
    the attribute. *)
Definition lowest_index_match (rows : list row) (p : Point) : option row :=
  List.find (fun r => geom_intersects (fst r) p) rows.

Definition lookup_spec (gdf : GeoDataFrame) (lon lat : float) : pyval :=
  attribute_of (lowest_index_match (gdf_rows gdf) (mkPoint lon lat)).

End GeoDataFrame.

Arguments GeoDataFrame G : clear implicits.
Arguments row G : clear implicits.

(** ** The slope raster and the coordinate transformer *)

Definition CRS : Type := string.

(** A [pyproj.Transformer] from EPSG:4326 with [always_xy=True]:
    [proj_trans lon lat] is the projection of PROJ, [None] where PROJ
    reports an error for the point. *)
Record Transformer : Type := mkTransformer {
  proj_trans : float -> float -> option (float * float)
}.

(** [transformer.transform(lon, lat)]. [errcheck] keeps its default
    [False], so a point PROJ fails on comes back as [(inf, inf)]. *)
Definition transform (t : Transformer) (lon lat : float) : float * float :=
  match proj_trans t lon lat with
  | Some xy => xy
  | None => (F64.inf, F64.inf)
  end.

(** The inputs the specification wants [InvalidCoordinate] for: a
    non-finite coordinate, [|lat| > 90] or [|lon| > 180]. *)
Definition spec_invalid_coordinate (lon lat : float) : bool :=
  negb (F64.is_finite lon) || negb (F64.is_finite lat) ||
  F64.ltb (F64.of_Z 90) (SFabs lat) || F64.ltb (F64.of_Z 180) (SFabs lon).

(** An open [rasterio] dataset: the metadata [get_slope] reads, the
    world-to-pixel mapping [src.index] and the one-pixel windowed read of
    band 1. *)
Record RasterDataset : Type := mkRasterDataset {
  ds_crs : CRS;
  ds_left : float;
  ds_bottom : float;
  ds_right : float;
  ds_top : float;
  ds_height : Z;
  ds_width : Z;
  ds_nodata : option float;
  ds_index : float -> float -> result (Z * Z);
  ds_read : Z -> Z -> result float
}.

(** [src.index] of a north-up raster with unit pixels whose upper left
    corner is [(left, top)]: row [floor (top - y)], column
    [floor (x - left)]. *)
Definition north_up_index (left top x y : float) : result (Z * Z) :=
  match F64.floor (F64.sub top y), F64.floor (F64.sub x left) with
  | Some r, Some c => Ok (r, c)
  | _, _ => Raise ValueError
  end.

(** ** The classifier and the scaler *)

Record Scaler : Type := mkScaler {
  scaler_truthy : bool;
  scaler_transform : list (list pyval) -> result (list (list float))
}.

Record Model : Type := mkModel {
  model_truthy : bool;
  model_predict_proba : list (list float) -> result (list (list float))
}.

(** [not obj] for a global that is [None] or a loaded object. *)
Definition py_not {A} (truthy : A -> bool) (obj : option A) : bool :=
  match obj with
  | None => true
  | Some a => negb (truthy a)
  end.

(** ** Requests and responses *)

(** The body of a POST to [/predict] as [request.json] sees it. *)
Inductive request_body : Type :=
| JsonObject (data : gmap string pyval)
| JsonOther (v : pyval)
| NotJson.

(** The text of an ["error"] field: a literal of the program or
    [str(e)] of the exception caught. *)
Inductive error_text : Type :=
| Message (s : string)
| StrOfExn (e : exn).

(** In [GeoData], [soil_type] holds the value [v] whose [str(v)] is
    sent, [None] for [null]. *)
Inductive body : Type :=
| GeoData (slope : option float) (soil_type : option pyval)
| Prediction (prediction confidence : string)
| Error (error : error_text).

Record response : Type := mkResponse { resp_body : body; resp_status : Z }.

(** [jsonify(b)] and [jsonify(b), code]. *)
Definition jsonify (b : body) : response := mkResponse b 200.
Definition jsonify_status (b : body) (code : Z) : response := mkResponse b code.

(** ** The feature vector of [predict] *)

(** [data.get(key, 0)] *)
Definition data_get (data : gmap string pyval) (key : string) : pyval :=
  default (PInt 0) (data !! key).

Definition int_field (data : gmap string pyval) (key : string) : result pyval :=
  n ← py_int (data_get data key); Ok (PInt n).

Definition float_field (data : gmap string pyval) (key : string) : result pyval :=
  f ← py_float (data_get data key); Ok (PFloat f).

(** The list [features] of [predict], entry by entry and in the order
    of evaluation. *)
Definition build_features (data : gmap string pyval) : result (list pyval) :=
  f0 ← int_field data "soil_type";
  f1 ← float_field data "slope";
  f2 ← float_field data "soil_moisture";
  f3 ← float_field data "rainfall-3-hr";
  f4 ← float_field data "rainfall-6-hr";
  f5 ← float_field data "rainfall-12-hr";
  f6 ← float_field data "rain-intensity-3-hr";
  f7 ← float_field data "rain-intensity-6hr";
  f8 ← float_field data "rain-intensity-12-hr";
  f9 ← float_field data "rainfall-1-day";
  f10 ← float_field data "rainfall-3-day";
  f11 ← float_field data "rainfall-5-day";
  f12 ← float_field data "rain-intensity-1-day";
  f13 ← float_field data "rain-intensity-3-day";
  f14 ← float_field data "rain-intensity-5-day";
  Ok [f0; f1; f2; f3; f4; f5; f6; f7; f8; f9; f10; f11; f12; f13; f14].

(** The same list as a table: the key read at each position and the
    conversion applied to it. *)
Inductive conversion : Type := AsInt | AsFloat.

Definition feature_schema : list (string * conversion) :=
  [ ("soil_type", AsInt);
    ("slope", AsFloat);
    ("soil_moisture", AsFloat);
    ("rainfall-3-hr", AsFloat);
    ("rainfall-6-hr", AsFloat);
    ("rainfall-12-hr", AsFloat);
    ("rain-intensity-3-hr", AsFloat);
    ("rain-intensity-6hr", AsFloat);
    ("rain-intensity-12-hr", AsFloat);
    ("rainfall-1-day", AsFloat);
    ("rainfall-3-day", AsFloat);
    ("rainfall-5-day", AsFloat);
    ("rain-intensity-1-day", AsFloat);
    ("rain-intensity-3-day", AsFloat);
    ("rain-intensity-5-day", AsFloat) ].

Definition convert (c : conversion) (v : pyval) : result pyval :=
  match c with
  | AsInt => n ← py_int v; Ok (PInt n)
  | AsFloat => f ← py_float v; Ok (PFloat f)
  end.

Definition field (data : gmap string pyval) (kc : string * conversion)
  : result pyval :=
  convert (snd kc) (data_get data (fst kc)).

Fixpoint fields (data : gmap string pyval) (schema : list (string * conversion))
  : result (list pyval) :=
  match schema with
  | [] => Ok []
  | kc :: schema' =>
      v ← field data kc; vs ← fields data schema'; Ok (v :: vs)
  end.

Definition is_numeric (v : pyval) : bool :=
  match v with
  | PInt _ | PFloat _ => true
  | _ => false
  end.

(** Every field of the schema that the request carries converts. *)
Definition parsable (data : gmap string pyval) : Prop :=
  forall k c v, (k, c) ∈ feature_schema -> data !! k = Some v ->
    is_ok (convert c v) = true.

Definition parsableb (data : gmap string pyval) : bool :=
  forallb
    (fun kc : string * conversion =>
       match data !! fst kc with
       | Some v => is_ok (convert (snd kc) v)
       | None => true
       end)
    feature_schema.

(** The exceptions [int] and [float] raise. *)
Definition conversion_error (e : exn) : Prop :=
  e = ValueError \/ e = TypeError \/ e = OverflowError.

(** The value the vector holds for a key: the converted input, the
    converted default [0] when the key is absent. *)
Definition zero_of (c : conversion) : pyval :=
  match c with
  | AsInt => PInt 0
  | AsFloat => PFloat F64.zero
  end.

(** ** The module: start-up globals and the two routes *)

Section Backend.

Context {G : Type} `{Geometry G}.

(** What lies outside the process: the files on disk as the loaders
    see them, and the CRS database of pyproj. *)
Record World : Type := mkWorld {
  read_file : string -> result (GeoDataFrame G);
  rasterio_open : string -> result RasterDataset;
  transformer_from_crs : CRS -> result Transformer;
  unpickle_model : string -> result Model;
  unpickle_scaler : string -> result Scaler
}.

(** The module-level globals the routes read. *)
Record Server : Type := mkServer {
  soil_gdf : option (GeoDataFrame G);
  slope_tif : option string;
  model : option Model;
  scaler : option Scaler
}.

Definition soil_shapefile : string := "./data/soil_map/hays.shp".
Definition slope_tif_path : string := "./data/slope_map/slope.tif".
Definition model_path : string := "./models/model_4.pkl".
Definition scaler_path : string := "./models/scaler_4.pkl".

(** The three loading blocks at import time. One [try] covers both
    pickles: when either fails, both globals are set to [None]. *)
Definition load_soil (w : World) : option (GeoDataFrame G) :=
  match read_file w soil_shapefile with
  | Ok gdf => Some gdf
  | Raise _ => None
  end.

Definition load_slope (w : World) : option string :=
  match rasterio_open w slope_tif_path with
  | Ok _ => Some slope_tif_path
  | Raise _ => None
  end.

Definition load_models (w : World) : option Model * option Scaler :=
  match
    m ← unpickle_model w model_path;
    s ← unpickle_scaler w scaler_path;
    Ok (m, s)
  with
  | Ok (m, s) => (Some m, Some s)
  | Raise _ => (None, None)
  end.

Definition startup (w : World) : Server :=
  let '(m, s) := load_models w in
  mkServer (load_soil w) (load_slope w) m s.

(** [convert_coords(lon, lat, crs)] *)
Definition convert_coords (w : World) (lon lat : float) (crs : CRS)
  : result (float * float) :=
  transformer ← transformer_from_crs w crs;
  Ok (transform transformer lon lat).

(** The bounds test of [get_slope]:
    [left <= x <= right and bottom <= y <= top]. *)
Definition in_bounds (src : RasterDataset) (x y : float) : bool :=
  (F64.leb (ds_left src) x && F64.leb x (ds_right src)) &&
  (F64.leb (ds_bottom src) y && F64.leb y (ds_top src)).

(** A point strictly beyond one of the four edges of the bounds
    rectangle. *)
Definition outside_bounds (src : RasterDataset) (x y : float) : bool :=
  F64.ltb x (ds_left src) || F64.ltb (ds_right src) x ||
  F64.ltb y (ds_bottom src) || F64.ltb (ds_top src) y.

(** [0 <= row < src.height and 0 <= col < src.width] *)
Definition in_grid (src : RasterDataset) (row col : Z) : bool :=
  ((0 <=? row) && (row <? ds_height src)) &&
  ((0 <=? col) && (col <? ds_width src)).

(** [src.nodata is not None and slope_value == src.nodata
     or np.isnan(slope_value)] *)
Definition is_missing (src : RasterDataset) (slope_value : float) : bool :=
  match ds_nodata src with
  | Some nodata => F64.eqb slope_value nodata
  | None => false
  end || F64.is_nan slope_value.

(** The body of the [with] block of [get_slope]. *)
Definition sample (w : World) (src : RasterDataset) (lon lat : float)
  : result pyval :=
  '(x, y) ← convert_coords w lon lat (ds_crs src);
  if negb (in_bounds src x y) then Ok PNone
  else
    '(row, col) ← ds_index src x y;
    if in_grid src row col then
      slope_value ← ds_read src row col;
      if is_missing src slope_value then Ok PNone
      else f ← py_float (PFloat slope_value); Ok (PFloat f)
    else Ok PNone.

(** [get_slope(lon, lat)] *)
Definition get_slope (w : World) (st : Server) (lon lat : float)
  : result pyval :=
  match slope_tif st with
  | None => Ok (PStr "Error: Raster file not loaded on server")
  | Some path =>
      try_except
        (src ← rasterio_open w path; sample w src lon lat)
        (fun _ => Ok (PStr "Error during processing"))
  end.

(** [request.args.get(key, type=float)]: [None] when the argument is
    missing or [float] rejects it. *)
Definition args_get_float (args : gmap string string) (key : string)
  : option float :=
  s ← args !! key; Literal.parse_float s.

(** [get_geo_data()], with the query arguments of the request. *)
Definition get_geo_data (w : World) (st : Server) (args : gmap string string)
  : result response :=
  match args_get_float args "lat", args_get_float args "lon" with
  | Some lat, Some lon =>
      slope ← get_slope w st lon lat;
      soil ← get_soil_type (soil_gdf st) lon lat;
      slope_field ←
        match slope with
        | PNone => Ok None
        | _ => f ← py_float slope; Ok (Some f)
        end;
      let soil_field :=
        match soil with
        | PNone => None
        | _ => Some soil
        end in
      Ok (jsonify (GeoData slope_field soil_field))
  | _, _ =>
      Ok (jsonify_status (Error (Message "Missing or invalid coordinates")) 400)
  end.

(** ["Landslide" if prediction == 1 else "No Landslide"] *)
Definition class_label (prediction : nat) : string :=
  if Nat.eqb prediction 1 then "Landslide" else "No Landslide".

(** [f"{p * 100:.2f}%"] *)
Definition percent (p : float) : string :=
  Format.format_2f (F64.mul p (F64.of_Z 100)) ++ "%".

(** The label and the confidence [predict] reports for the first row
    of [predict_proba]. *)
Definition decide (probabilities : list float) : result body :=
  prediction ← np_argmax probabilities;
  top ← py_max probabilities;
  Ok (Prediction (class_label prediction) (percent top)).

(** Reading an attribute of a global: [None] has none. *)
Definition loaded {A} (obj : option A) : result A :=
  match obj with
  | Some a => Ok a
  | None => Raise AttributeError
  end.

(** The [try] block of [predict]. *)
Definition infer (st : Server) (req : request_body) : result response :=
  data ←
    match req with
    | JsonObject data => Ok data
    | JsonOther _ => Raise AttributeError
    | NotJson => Raise BadRequest
    end;
  features ← build_features data;
  s ← loaded (scaler st);
  features_scaled ← scaler_transform s [features];
  m ← loaded (model st);
  proba ← model_predict_proba m features_scaled;
  probabilities ←
    match proba with
    | p :: _ => Ok p
    | [] => Raise IndexError
    end;
  b ← decide probabilities;
  Ok (jsonify b).

(** [predict()] *)
Definition predict (st : Server) (req : request_body) : result response :=
  if py_not model_truthy (model st) || py_not scaler_truthy (scaler st)
  then
    Ok (jsonify_status
          (Error (Message "Machine learning models are not loaded on the server"))
          503)
  else
    try_except (infer st req)
      (fun e => Ok (jsonify_status (Error (StrOfExn e)) 400)).

End Backend.

Arguments World G : clear implicits.
Arguments Server G : clear implicits.

(** ** The entry point *)

(** [int(os.environ.get("PORT", 8080))], the port [app.run] listens
    on. *)
Definition server_port (environ : gmap string string) : result Z :=
  py_int (match environ !! "PORT" with
          | Some s => PStr s
          | None => PInt 8080
          end).

(** The character of a decimal digit and the string of a list of
    digits, most significant first. *)
Definition digit_char (d : N) : ascii := ascii_of_N (48 + d).

Definition decimal (ds : list N) : string :=
  string_of_list_ascii (map digit_char ds).

(** ** A small deployment, for the examples *)

Module Demo.

(** The float of an integer. *)
Definition num (n : Z) : float := F64.of_Z n.

(** Two overlapping soil polygons. The first feature of the file lies
    north-east of the second. *)
Definition east : Rect := mkRect (mkBBox (num 2) (num 1) (num 6) (num 5)).
Definition west : Rect := mkRect (mkBBox (num 0) (num 0) (num 4) (num 4)).

Definition rows : list (row Rect) :=
  [ (east, {[ "SNUM" := PInt 12 ]}); (west, {[ "SNUM" := PInt 7 ]}) ].

(** An index that visits its entries from south-west to north-east,
    as a tree packed by coordinate does, and one that visits them in file
    order. *)
Definition gdf_west_first : GeoDataFrame Rect :=
  mkGeoDataFrame rows [ (rect_box west, 1%nat); (rect_box east, 0%nat) ].

Definition gdf_file_order : GeoDataFrame Rect :=
  mkGeoDataFrame rows (sindex_entries rows).

(** A raster of two rows and three columns over [0, 3] x [0, 2], with
    nodata [-9999]. *)
Definition pixels : list (list float) :=
  [ [ F64.of_decimal false 47 (-1); F64.nan; num (-9999) ];
    [ num 1; num 2; num 3 ] ].

Definition read_pixel (r c : Z) : result float :=
  match pixels !! Z.to_nat r ≫= (fun line => line !! Z.to_nat c) with
  | Some v => Ok v
  | None => Raise IndexError
  end.

Definition raster : RasterDataset :=
  mkRasterDataset "EPSG:4326" (num 0) (num 0) (num 3) (num 2) 2 3
    (Some (num (-9999))) (north_up_index (num 0) (num 2)) read_pixel.

(** Geographic coordinates kept as they are; outside the domain of
    longitude and latitude the projection reports an error. *)
Definition in_domain (lon lat : float) : bool :=
  F64.leb (num (-180)) lon && F64.leb lon (num 180) &&
  F64.leb (num (-90)) lat && F64.leb lat (num 90).

Definition geographic : Transformer :=
  mkTransformer (fun lon lat =>
    if in_domain lon lat then Some (lon, lat) else None).

(** A scaler that only converts to floats and a classifier with a
    constant output. *)
Definition the_scaler : Scaler :=
  mkScaler true (mapM (mapM py_float)).

Definition constant_model (p0 p1 : float) : Model :=
  mkModel true (fun rows => Ok (map (fun _ => [p0; p1]) rows)).

Definition quarter : float := F64.of_decimal false 25 (-2).
Definition half : float := F64.of_decimal false 5 (-1).
Definition three_quarters : float := F64.of_decimal false 75 (-2).

(** Bodies of POST requests. The first spells the six-hour intensity
    like its neighbours. *)
Definition request : gmap string pyval :=
  {[ "soil_type" := PStr "3";
     "slope" := PFloat (F64.of_decimal false 47 (-1));
     "rain-intensity-6-hr" := PInt 3 ]}.

Definition bad_request : gmap string pyval :=
  {[ "soil_type" := PStr "clay"; "slope" := PInt 4 ]}.

(** The feature vector of [request], as built and as scaled. *)
Definition features : list pyval :=
  PInt 3 :: PFloat (F64.of_decimal false 47 (-1)) ::
  repeat (PFloat F64.zero) 13.

Definition features_scaled : list (list float) :=
  [ num 3 :: F64.of_decimal false 47 (-1) :: repeat F64.zero 13 ].

(** The query string [?lat=2&lon=0]. *)
Definition query : gmap string string :=
  {[ "lat" := "2"; "lon" := "0" ]}.

(** A query whose latitude is not a number literal. *)
Definition query_without_latitude : gmap string string :=
  {[ "lat" := "north"; "lon" := "0" ]}.

(** [request] with a field the schema does not know. *)
Definition request_with_note : gmap string pyval :=
  <[ "note" := PStr "field survey" ]> request.

(** A body with two fields that do not convert: [slope] is [null],
    [soil_moisture] is a word. *)
Definition request_two_errors : gmap string pyval :=
  {[ "soil_type" := PInt 3; "slope" := PNone; "soil_moisture" := PStr "wet" ]}.

(** The environment of a container told to listen on port 9090. *)
Definition environ : gmap string string :=
  {[ "PORT" := "9090" ]}.

Definition missing {A} : string -> result A :=
  fun _ => Raise (OtherError "FileNotFoundError").

(** The disk with every file in place, with a given classifier. *)
Definition world_with (m : Model) : World Rect :=
  mkWorld (fun _ => Ok gdf_file_order) (fun _ => Ok raster)
    (fun _ => Ok geographic) (fun _ => Ok m) (fun _ => Ok the_scaler).

Definition world : World Rect :=
  world_with (constant_model quarter three_quarters).

(** A classifier that gives both classes the same probability. *)
Definition world_tie : World Rect :=
  world_with (constant_model half half).

(** The same disk without the scaler pickle, and without the raster. *)
Definition world_without_scaler : World Rect :=
  mkWorld (fun _ => Ok gdf_file_order) (fun _ => Ok raster)
    (fun _ => Ok geographic)
    (fun _ => Ok (constant_model quarter three_quarters))
    missing.

Definition world_without_raster : World Rect :=
  mkWorld (fun _ => Ok gdf_file_order) missing
    (fun _ => Ok geographic)
    (fun _ => Ok (constant_model quarter three_quarters))
    (fun _ => Ok the_scaler).

Definition world_without_shapefile : World Rect :=
  mkWorld missing (fun _ => Ok raster)
    (fun _ => Ok geographic)
    (fun _ => Ok (constant_model quarter three_quarters))
    (fun _ => Ok the_scaler).

(** A classifier object that unpickles and is false as a condition, as
    an ensemble without estimators is. *)
Definition empty_model : Model :=
  mkModel false (fun rows => Ok (map (fun _ => [half; half]) rows)).

(** A frame whose only polygon has no [SNUM] attribute. *)
Definition gdf_without_snum : GeoDataFrame Rect :=
  mkGeoDataFrame [ (west, {[ "NAME" := PStr "clay loam" ]}) ]
    [ (rect_box west, 0%nat) ].

(** A body whose [slope] is [null]. *)
Definition request_null_slope : gmap string pyval :=
  {[ "soil_type" := PInt 3; "slope" := PNone ]}.

End Demo.

(** * Properties *)

(** ** Order of binary64 floats *)

Lemma SFcompare_antisym (a b : float) :
  SFcompare b a = option_map CompOpp (SFcompare a b).
Proof.
  destruct a as [sa|sa| |sa ma ea], b as [sb|sb| |sb mb eb]; simpl;
    try destruct sa; try destruct sb; simpl; try reflexivity.
  - rewrite (Z.compare_antisym eb ea).
    destruct (eb ?= ea); simpl; try reflexivity.
    now rewrite (Pos.compare_cont_antisym ma mb Eq).
  - rewrite (Z.compare_antisym eb ea).
    destruct (eb ?= ea); simpl; try reflexivity.
    now rewrite (Pos.compare_cont_antisym ma mb Eq).
Qed.

Lemma SFcompare_not_nan (a b : float) :
  F64.is_nan a = false -> F64.is_nan b = false ->
  exists c, SFcompare a b = Some c.
Proof.
  destruct a, b; simpl; intros Ha Hb; try discriminate; eauto.
Qed.

Lemma SFcompare_refl (a : float) :
  F64.is_nan a = false -> SFcompare a a = Some Eq.
Proof.
  destruct a as [s|s| |s m e]; simpl; intros Ha; try discriminate;
    try (destruct s; reflexivity).
  destruct s; rewrite Z.compare_refl;
    change (Pos.compare_cont Eq m m) with (Pos.compare m m);
    now rewrite Pos.compare_refl.
Qed.

Lemma ltb_leb_false (a b : float) :
  F64.ltb a b = true -> F64.leb b a = false.
Proof.
  unfold F64.ltb, F64.leb, SFltb, SFleb.
  rewrite (SFcompare_antisym a b).
  destruct (SFcompare a b) as [[]|]; simpl; congruence.
Qed.

Lemma leb_false_ltb (a b : float) :
  F64.is_nan a = false -> F64.is_nan b = false ->
  F64.leb a b = false -> F64.ltb b a = true.
Proof.
  intros Ha Hb. unfold F64.ltb, F64.leb, SFltb, SFleb.
  rewrite (SFcompare_antisym a b).
  destruct (SFcompare_not_nan a b Ha Hb) as [c ->].
  destruct c; simpl; congruence.
Qed.

Lemma not_leb_ltb (a b : float) :
  F64.is_nan a = false -> F64.is_nan b = false ->
  negb (F64.leb b a) = F64.ltb a b.
Proof.
  intros Ha Hb.
  destruct (F64.leb b a) eqn:E; simpl.
  - destruct (F64.ltb a b) eqn:L; [|reflexivity].
    apply ltb_leb_false in L. congruence.
  - symmetry. now apply leb_false_ltb.
Qed.

Lemma leb_refl (a : float) : F64.is_nan a = false -> F64.leb a a = true.
Proof.
  intros Ha. unfold F64.leb, SFleb. now rewrite SFcompare_refl.
Qed.

Lemma ltb_leb (a b : float) : F64.ltb a b = true -> F64.leb a b = true.
Proof.
  unfold F64.ltb, F64.leb, SFltb, SFleb.
  destruct (SFcompare a b) as [[]|]; congruence.
Qed.

Lemma eqb_ltb_false (a b : float) : F64.eqb a b = true -> F64.ltb a b = false.
Proof.
  unfold F64.eqb, F64.ltb, SFeqb, SFltb.
  destruct (SFcompare a b) as [[]|]; congruence.
Qed.

Lemma leb_nan_l (a : float) : F64.leb F64.nan a = false.
Proof. reflexivity. Qed.

Lemma leb_nan_r (a : float) : F64.leb a F64.nan = false.
Proof. destruct a; reflexivity. Qed.

Create HintDb float_order.
#[global] Hint Resolve ltb_leb leb_refl eqb_ltb_false : float_order.

(** One step of a handler: run the binds whose left side is known. *)
Ltac step := cbn [mbind result_bind try_except].

(** ** The soil lookup *)

Section SoilLookup.

Context {G : Type} `{Geometry G}.

Implicit Types (rows : list (row G)) (gdf : GeoDataFrame G) (p : Point).

Lemma sindex_built_sound gdf :
  sindex_built gdf -> Forall (entry_sound (gdf_rows gdf)) (gdf_sindex gdf).
Proof.
  intros Hb. apply Forall_forall. intros e He.
  assert (Hin : e ∈ sindex_entries (gdf_rows gdf)).
  { unfold sindex_built in Hb. now rewrite <- Hb. }
  apply elem_of_lookup_imap in Hin as (i & r & -> & Hr).
  exists r. simpl. auto.
Qed.

Lemma iloc_sindex_intersection rows sindex bounds :
  Forall (entry_sound rows) sindex ->
  iloc rows (sindex_intersection sindex bounds) =
  Ok (omap (fun e => rows !! snd e)
        (List.filter (fun e => bbox_intersects (fst e) bounds) sindex)).
Proof.
  unfold sindex_intersection.
  induction 1 as [|e sindex (r & Hr & _) _ IH]; simpl; [reflexivity|].
  destruct (bbox_intersects (fst e) bounds); simpl; [|exact IH].
  unfold row in *. rewrite Hr, IH. reflexivity.
Qed.

(** Pruning by bounding box loses no row that intersects the point. *)
Lemma filter_candidates rows sindex p :
  Forall (entry_sound rows) sindex ->
  List.filter (fun r => geom_intersects (fst r) p)
    (omap (fun e => rows !! snd e)
       (List.filter (fun e => bbox_intersects (fst e) (point_bounds p)) sindex)) =
  List.filter (fun r => geom_intersects (fst r) p)
    (omap (fun e => rows !! snd e) sindex).
Proof.
  induction 1 as [|e sindex (r & Hr & Hbox) _ IH]; simpl; [reflexivity|].
  unfold row in *. rewrite Hr.
  destruct (bbox_intersects (fst e) (point_bounds p)) eqn:Eb; simpl.
  - rewrite Hr. simpl.
    destruct (geom_intersects (fst r) p); [f_equal|]; exact IH.
  - destruct (geom_intersects (fst r) p) eqn:Ei; [|exact IH].
    apply geom_intersects_bounds in Ei. congruence.
Qed.

Lemma head_filter_find {A} (test : A -> bool) (l : list A) :
  match List.filter test l with x :: _ => Some x | [] => None end =
  List.find test l.
Proof.
  induction l as [|x l IH]; simpl; [reflexivity|].
  destruct (test x); [reflexivity|exact IH].
Qed.

Lemma visit_file_order_aux (prefix rows : list (row G)) :
  omap (fun e : BBox * nat => (prefix ++ rows)%list !! snd e)
    (imap (fun i r => (geom_bounds (fst r), (length prefix + i)%nat)) rows) =
  rows.
Proof.
  revert prefix. induction rows as [|r rows IH]; intros prefix; [reflexivity|].
  cbn [imap omap list_omap snd].
  rewrite Nat.add_0_r, (list_lookup_middle prefix rows r (length prefix) eq_refl).
  f_equal.
  specialize (IH (prefix ++ [r])%list).
  rewrite <- app_assoc in IH. cbn [app] in IH.
  etrans; [|exact IH].
  f_equal. apply imap_ext. intros i x _. cbn.
  rewrite length_app. cbn. f_equal. lia.
Qed.

Lemma visit_file_order rows :
  omap (fun e : BBox * nat => rows !! snd e) (sindex_entries rows) = rows.
Proof. exact (visit_file_order_aux [] rows). Qed.

Lemma visit_order_in_file_order gdf :
  sindex_in_file_order gdf -> visit_order gdf = gdf_rows gdf.
Proof.
  unfold sindex_in_file_order, visit_order. intros ->.
  apply visit_file_order.
Qed.

(** Every row is visited, once. *)
Lemma visit_order_permutation gdf :
  sindex_built gdf -> visit_order gdf ≡ₚ gdf_rows gdf.
Proof.
  unfold sindex_built, visit_order. intros ->.
  now rewrite visit_file_order.
Qed.

(** [lowest_index_match] is the match of least position. *)
Lemma lowest_index_match_least rows p r :
  lowest_index_match rows p = Some r ->
  exists i, rows !! i = Some r /\ geom_intersects (fst r) p = true /\
    forall j r', (j < i)%nat -> rows !! j = Some r' ->
      geom_intersects (fst r') p = false.
Proof.
  unfold lowest_index_match.
  induction rows as [|x rows IH]; simpl; [discriminate|].
  destruct (geom_intersects (fst x) p) eqn:Ex.
  - intros [= <-]. exists 0%nat. repeat split; auto. intros j r' Hj. lia.
  - intros Hfind. destruct (IH Hfind) as (i & Hi & Hr & Hleast).
    exists (S i). repeat split; auto.
    intros [|j] r' Hj; simpl.
    + intros [= <-]. exact Ex.
    + apply Hleast. lia.
Qed.

Lemma get_soil_type_visits gdf lon lat :
  sindex_built gdf -> point_is_valid (mkPoint lon lat) = true ->
  get_soil_type (Some gdf) lon lat =
  Ok (attribute_of (first_visited_match gdf (mkPoint lon lat))).
Proof.
  intros Hb Hv. unfold get_soil_type. rewrite Hv. simpl.
  pose proof (sindex_built_sound gdf Hb) as Hs.
  rewrite (iloc_sindex_intersection _ _ _ Hs). simpl.
  rewrite (filter_candidates _ _ _ Hs).
  unfold first_visited_match, visit_order.
  rewrite <- head_filter_find.
  destruct (List.filter _ _); reflexivity.
Qed.

End SoilLookup.

(** C1 (amended). For a frame whose spatial index was built from its
    geometry column and a valid query point, [get_soil_type] returns the
    [SNUM] attribute of the first polygon that contains the point in the
    order in which the spatial index visits its entries (every polygon is
    visited exactly once), and ["Unknown"] when no polygon contains it.
    When the index visits its entries in load order, this is the attribute
    of the matching polygon with the lowest load-order index. The result
    is a function of the frame and the point alone, so every call with
    that point returns it. *)
Theorem get_soil_type_first_visited_match
  {G : Type} `{Geometry G} (gdf : GeoDataFrame G) (lon lat : float) :
  sindex_built gdf -> point_is_valid (mkPoint lon lat) = true ->
  get_soil_type (Some gdf) lon lat =
    Ok (attribute_of (first_visited_match gdf (mkPoint lon lat))) /\
  visit_order gdf ≡ₚ gdf_rows gdf /\
  (sindex_in_file_order gdf ->
   get_soil_type (Some gdf) lon lat = Ok (lookup_spec gdf lon lat)).
Proof.
  intros Hb Hv. split; [|split].
  - now apply get_soil_type_visits.
  - now apply visit_order_permutation.
  - intros Hf. rewrite get_soil_type_visits by assumption.
    unfold first_visited_match, lookup_spec, lowest_index_match.
    now rewrite (visit_order_in_file_order gdf Hf).
Qed.

Lemma get_soil_type_first_visited_match_witness :
  sindex_built Demo.gdf_file_order /\
  point_is_valid (mkPoint (Demo.num 3) (Demo.num 2)) = true /\
  sindex_in_file_order Demo.gdf_file_order /\
  get_soil_type (Some Demo.gdf_file_order) (Demo.num 3) (Demo.num 2) = Ok (PInt 12).
Proof.
  assert (Hb : sindex_built Demo.gdf_file_order)
    by (unfold sindex_built; reflexivity).
  assert (Hv : point_is_valid (mkPoint (Demo.num 3) (Demo.num 2)) = true)
    by reflexivity.
  assert (Hf : sindex_in_file_order Demo.gdf_file_order)
    by (unfold sindex_in_file_order; reflexivity).
  split; [exact Hb|]. split; [exact Hv|]. split; [exact Hf|].
  destruct (get_soil_type_first_visited_match
              Demo.gdf_file_order (Demo.num 3) (Demo.num 2) Hb Hv) as (_ & _ & Hlow).
  rewrite (Hlow Hf). vm_compute. reflexivity.
Defined.

(** C1, as stated, fails: the first feature of the file lies
    north-east of the second, both contain the point [(3, 2)], and an
    index that visits its entries from south-west to north-east makes
    [get_soil_type] return the attribute of the second feature, not of
    the first. *)
Lemma get_soil_type_lowest_index_counterexample :
  sindex_built Demo.gdf_west_first /\
  geom_intersects Demo.east (mkPoint (Demo.num 3) (Demo.num 2)) = true /\
  geom_intersects Demo.west (mkPoint (Demo.num 3) (Demo.num 2)) = true /\
  lookup_spec Demo.gdf_west_first (Demo.num 3) (Demo.num 2) = PInt 12 /\
  get_soil_type (Some Demo.gdf_west_first) (Demo.num 3) (Demo.num 2) = Ok (PInt 7) /\
  get_soil_type (Some Demo.gdf_west_first) (Demo.num 3) (Demo.num 2) <>
    Ok (lookup_spec Demo.gdf_west_first (Demo.num 3) (Demo.num 2)).
Proof.
  repeat split; try (vm_compute; reflexivity); try (vm_compute; discriminate).
  unfold sindex_built. cbn. apply perm_swap.
Qed.

(** ** The coordinate transform *)

Section Transform.

Context {G : Type} `{Geometry G}.

Implicit Types (w : World G) (st : Server G) (src : RasterDataset).

Lemma convert_coords_ok w lon lat crs t :
  transformer_from_crs w crs = Ok t ->
  convert_coords w lon lat crs = Ok (transform t lon lat).
Proof. unfold convert_coords. now intros ->. Qed.

Lemma convert_coords_raise w lon lat crs e :
  transformer_from_crs w crs = Raise e ->
  convert_coords w lon lat crs = Raise e.
Proof. unfold convert_coords. now intros ->. Qed.

(** Whether [convert_coords] raises does not depend on the point. *)
Lemma convert_coords_outcome w crs lon lat lon' lat' :
  is_ok (convert_coords w lon lat crs) = is_ok (convert_coords w lon' lat' crs).
Proof.
  unfold convert_coords. now destruct (transformer_from_crs w crs).
Qed.

(** A point beyond every finite number is in no raster with a finite
    right edge. *)
Lemma in_bounds_inf src :
  F64.is_finite (ds_right src) = true ->
  in_bounds src F64.inf F64.inf = false.
Proof.
  unfold in_bounds. intros Hr.
  assert (F64.leb F64.inf (ds_right src) = false) as ->.
  { destruct (ds_right src) as [| | |[] ? ?]; simpl in *;
      try discriminate; reflexivity. }
  now rewrite andb_false_r.
Qed.

End Transform.




(** ** The raster sample *)

Section Raster.

Context {G : Type} `{Geometry G}.

Implicit Types (w : World G) (st : Server G) (src : RasterDataset).

Lemma outside_not_in_bounds src x y :
  outside_bounds src x y = true -> in_bounds src x y = false.
Proof.
  unfold outside_bounds, in_bounds. intros Ho.
  repeat (apply orb_true_iff in Ho as [Ho|Ho]);
    apply ltb_leb_false in Ho; rewrite Ho; simpl;
    rewrite ?andb_false_r; reflexivity.
Qed.

(** A nan coordinate fails the bounds test. *)
Lemma nan_not_in_bounds src x y :
  F64.is_nan x = true \/ F64.is_nan y = true -> in_bounds src x y = false.
Proof.
  unfold in_bounds.
  intros [Hx|Hy]; [destruct x|destruct y]; try discriminate.
  - now rewrite leb_nan_r.
  - now rewrite leb_nan_r, andb_false_r.
Qed.

(** The sampling outside the raster, and on it. *)
Lemma sample_outside w src lon lat x y :
  convert_coords w lon lat (ds_crs src) = Ok (x, y) ->
  in_bounds src x y = false ->
  sample w src lon lat = Ok PNone.
Proof. unfold sample. intros -> Hb. simpl. now rewrite Hb. Qed.

Lemma sample_off_grid w src lon lat x y r c :
  convert_coords w lon lat (ds_crs src) = Ok (x, y) ->
  in_bounds src x y = true ->
  ds_index src x y = Ok (r, c) ->
  in_grid src r c = false ->
  sample w src lon lat = Ok PNone.
Proof.
  unfold sample. intros -> Hb Hi Hg. simpl. rewrite Hb, Hi. simpl.
  now rewrite Hg.
Qed.

Lemma sample_pixel w src lon lat x y r c v :
  convert_coords w lon lat (ds_crs src) = Ok (x, y) ->
  in_bounds src x y = true ->
  ds_index src x y = Ok (r, c) ->
  in_grid src r c = true ->
  ds_read src r c = Ok v ->
  sample w src lon lat = Ok (if is_missing src v then PNone else PFloat v).
Proof.
  unfold sample. intros -> Hb Hi Hg Hv. simpl. rewrite Hb, Hi. simpl.
  rewrite Hg, Hv. simpl. now destruct (is_missing src v).
Qed.

Lemma get_slope_open w st path src lon lat :
  slope_tif st = Some path -> rasterio_open w path = Ok src ->
  get_slope w st lon lat =
  try_except (sample w src lon lat)
    (fun _ => Ok (PStr "Error during processing")).
Proof. unfold get_slope. now intros -> ->. Qed.

(** A point on which the projection fails is outside every raster with
    a finite right edge: its slope is [None]. *)
Lemma get_slope_projection_failure w st path src t lon lat :
  slope_tif st = Some path -> rasterio_open w path = Ok src ->
  transformer_from_crs w (ds_crs src) = Ok t ->
  proj_trans t lon lat = None ->
  F64.is_finite (ds_right src) = true ->
  get_slope w st lon lat = Ok PNone.
Proof.
  intros Hp Ho Ht Hfail Hr. rewrite (get_slope_open _ _ _ _ _ _ Hp Ho).
  rewrite (sample_outside w src lon lat F64.inf F64.inf).
  - reflexivity.
  - rewrite (convert_coords_ok _ _ _ _ _ Ht). unfold transform.
    now rewrite Hfail.
  - now apply in_bounds_inf.
Qed.

(** No exception leaves [get_slope]: it returns [None], a float or one
    of its two messages. *)
Lemma get_slope_returns w st lon lat :
  get_slope w st lon lat = Ok PNone \/
  (exists v, get_slope w st lon lat = Ok (PFloat v)) \/
  get_slope w st lon lat = Ok (PStr "Error: Raster file not loaded on server") \/
  get_slope w st lon lat = Ok (PStr "Error during processing").
Proof.
  unfold get_slope. destruct (slope_tif st) as [path|]; [|auto].
  destruct (rasterio_open w path) as [src|e]; simpl; [|auto].
  unfold sample.
  destruct (convert_coords w lon lat (ds_crs src)) as [[x y]|e]; simpl; [|auto].
  destruct (in_bounds src x y); simpl; [|auto].
  destruct (ds_index src x y) as [[r c]|e]; simpl; [|auto].
  destruct (in_grid src r c); [|auto].
  destruct (ds_read src r c) as [v|e]; simpl; [|auto].
  destruct (is_missing src v); simpl; eauto.
Qed.

End Raster.

(** C2. With the raster available and the point converted to raster
    coordinates [(x, y)]: if [(x, y)] lies beyond an edge of the bounds
    rectangle or is not a number, or if it passes the bounds test while
    the pixel indices of [src.index] fall outside
    [[0, height) x [0, width)], then [get_slope] returns [None], and does
    so without raising. *)
Theorem get_slope_null_off_raster
  {G : Type} `{Geometry G} (w : World G) (st : Server G)
  (path : string) (src : RasterDataset) (lon lat x y : float) :
  slope_tif st = Some path ->
  rasterio_open w path = Ok src ->
  convert_coords w lon lat (ds_crs src) = Ok (x, y) ->
  (outside_bounds src x y = true \/
   (F64.is_nan x = true \/ F64.is_nan y = true) \/
   (in_bounds src x y = true /\
    exists r c, ds_index src x y = Ok (r, c) /\ in_grid src r c = false)) ->
  get_slope w st lon lat = Ok PNone.
Proof.
  intros Hp Ho Hc Hcase. rewrite (get_slope_open _ _ _ _ _ _ Hp Ho).
  destruct Hcase as [Hout|[Hnan|(Hin & r & c & Hi & Hg)]].
  - rewrite (sample_outside _ _ _ _ _ _ Hc (outside_not_in_bounds _ _ _ Hout)).
    reflexivity.
  - rewrite (sample_outside _ _ _ _ _ _ Hc (nan_not_in_bounds _ _ _ Hnan)).
    reflexivity.
  - rewrite (sample_off_grid _ _ _ _ _ _ _ _ Hc Hin Hi Hg). reflexivity.
Qed.

Lemma get_slope_null_off_raster_witness :
  get_slope Demo.world (startup Demo.world) (Demo.num 5) (Demo.num 1) = Ok PNone /\
  get_slope Demo.world (startup Demo.world) (Demo.num 3) (Demo.num 2) = Ok PNone.
Proof.
  split.
  - apply (get_slope_null_off_raster Demo.world (startup Demo.world)
             slope_tif_path Demo.raster (Demo.num 5) (Demo.num 1) (Demo.num 5) (Demo.num 1));
      try reflexivity.
    left. reflexivity.
  - apply (get_slope_null_off_raster Demo.world (startup Demo.world)
             slope_tif_path Demo.raster (Demo.num 3) (Demo.num 2) (Demo.num 3) (Demo.num 2));
      try reflexivity.
    right. right. split; [reflexivity|]. exists 0, 3. split; reflexivity.
Defined.

(** C4. For a pixel of the grid that [get_slope] reads with value [v]:
    when the dataset declares a nodata value equal to [v], or [v] is nan,
    [get_slope] returns [None]; otherwise it returns [v] as a float. *)
Theorem get_slope_pixel_value
  {G : Type} `{Geometry G} (w : World G) (st : Server G)
  (path : string) (src : RasterDataset) (lon lat x y : float) (r c : Z)
  (v : float) :
  slope_tif st = Some path ->
  rasterio_open w path = Ok src ->
  convert_coords w lon lat (ds_crs src) = Ok (x, y) ->
  in_bounds src x y = true ->
  ds_index src x y = Ok (r, c) ->
  in_grid src r c = true ->
  ds_read src r c = Ok v ->
  (forall nodata, ds_nodata src = Some nodata -> F64.eqb v nodata = true ->
     get_slope w st lon lat = Ok PNone) /\
  (F64.is_nan v = true -> get_slope w st lon lat = Ok PNone) /\
  ((forall nodata, ds_nodata src = Some nodata -> F64.eqb v nodata = false) ->
   F64.is_nan v = false ->
   get_slope w st lon lat = Ok (PFloat v)).
Proof.
  intros Hp Ho Hc Hb Hi Hg Hv.
  rewrite (get_slope_open _ _ _ _ _ _ Hp Ho).
  rewrite (sample_pixel _ _ _ _ _ _ _ _ _ Hc Hb Hi Hg Hv). simpl.
  unfold is_missing. split; [|split].
  - intros nodata -> ->. reflexivity.
  - intros ->. now rewrite orb_true_r.
  - intros Hn ->. destruct (ds_nodata src) as [nodata|]; [|reflexivity].
    now rewrite (Hn nodata eq_refl).
Qed.

Lemma get_slope_pixel_value_witness :
  get_slope Demo.world (startup Demo.world) (Demo.num 2) (Demo.num 2) = Ok PNone /\
  get_slope Demo.world (startup Demo.world) (Demo.num 1) (Demo.num 2) = Ok PNone /\
  get_slope Demo.world (startup Demo.world) (Demo.num 2) (Demo.num 1) =
    Ok (PFloat (Demo.num 3)).
Proof.
  split; [|split].
  - refine (proj1 (get_slope_pixel_value Demo.world (startup Demo.world)
             slope_tif_path Demo.raster (Demo.num 2) (Demo.num 2) (Demo.num 2) (Demo.num 2)
             0 2 (Demo.num (-9999)) _ _ _ _ _ _ _) (Demo.num (-9999)) _ _);
      reflexivity.
  - refine (proj1 (proj2 (get_slope_pixel_value Demo.world (startup Demo.world)
             slope_tif_path Demo.raster (Demo.num 1) (Demo.num 2) (Demo.num 1) (Demo.num 2)
             0 1 F64.nan _ _ _ _ _ _ _)) _);
      reflexivity.
  - refine (proj2 (proj2 (get_slope_pixel_value Demo.world (startup Demo.world)
             slope_tif_path Demo.raster (Demo.num 2) (Demo.num 1) (Demo.num 2) (Demo.num 1)
             1 2 (Demo.num 3) _ _ _ _ _ _ _)) _ _);
      try reflexivity.
    intros nodata [= <-]. reflexivity.
Defined.

(** ** The feature vector *)

Section Features.

Implicit Types (data : gmap string pyval) (schema : list (string * conversion)).

Lemma build_features_fields data :
  build_features data = fields data feature_schema.
Proof.
  unfold build_features, feature_schema, int_field, float_field.
  cbn [fields field convert fst snd].
  destruct (py_int (data_get data "soil_type")); cbn; [|reflexivity].
  repeat
    match goal with
    | |- context [py_float (data_get data ?k)] =>
        destruct (py_float (data_get data k)); cbn; [|reflexivity]
    end.
  reflexivity.
Qed.

Lemma convert_default c : convert c (PInt 0) = Ok (zero_of c).
Proof. destruct c; reflexivity. Qed.

Lemma convert_numeric c v x : convert c v = Ok x -> is_numeric x = true.
Proof.
  destruct c; simpl.
  - destruct (py_int v); simpl; intros [= <-]; reflexivity.
  - destruct (py_float v); simpl; intros [= <-]; reflexivity.
Qed.

Lemma py_int_error v e : py_int v = Raise e -> conversion_error e.
Proof.
  unfold conversion_error.
  destruct v as [| | |[]| | |]; simpl; try discriminate;
    try (intros [= <-]; auto).
  destruct (Literal.parse_int s); [discriminate|intros [= <-]; auto].
Qed.

Lemma py_float_error v e : py_float v = Raise e -> conversion_error e.
Proof.
  unfold conversion_error.
  destruct v; simpl; try discriminate; try (intros [= <-]; auto).
  - destruct (F64.is_finite (F64.of_Z n)); [discriminate|intros [= <-]; auto].
  - destruct (Literal.parse_float s); [discriminate|intros [= <-]; auto].
Qed.

Lemma convert_error c v e : convert c v = Raise e -> conversion_error e.
Proof.
  destruct c; simpl.
  - destruct (py_int v) eqn:E; simpl; [discriminate|].
    intros [= <-]. eapply py_int_error, E.
  - destruct (py_float v) eqn:E; simpl; [discriminate|].
    intros [= <-]. eapply py_float_error, E.
Qed.

Lemma field_present data k c v :
  data !! k = Some v -> field data (k, c) = convert c v.
Proof. unfold field, data_get. simpl. now intros ->. Qed.

Lemma field_absent data k c :
  data !! k = None -> field data (k, c) = Ok (zero_of c).
Proof.
  unfold field, data_get. simpl. intros ->. apply convert_default.
Qed.

(** What a field holds when it is read. *)
Lemma field_value data k c x :
  field data (k, c) = Ok x ->
  match data !! k with
  | Some v => convert c v = Ok x
  | None => x = zero_of c
  end.
Proof.
  destruct (data !! k) as [v|] eqn:E.
  - now rewrite (field_present _ _ _ _ E).
  - rewrite (field_absent _ _ _ E). now intros [= <-].
Qed.

Lemma fields_lookup schema data vec :
  fields data schema = Ok vec ->
  length vec = length schema /\
  forall i kc, schema !! i = Some kc ->
    exists x, vec !! i = Some x /\ field data kc = Ok x.
Proof.
  revert vec. induction schema as [|kc0 schema IH]; intros vec; simpl.
  - intros [= <-]. split; [reflexivity|]. intros i kc Hi. discriminate.
  - destruct (field data kc0) as [x0|] eqn:E0; simpl; [|discriminate].
    destruct (fields data schema) as [vs|]; simpl; [|discriminate].
    intros [= <-]. destruct (IH vs eq_refl) as [Hlen Hget].
    split; [simpl; now rewrite Hlen|].
    intros [|i] kc; simpl.
    + intros [= <-]. eauto.
    + apply Hget.
Qed.

Lemma fields_ok schema data :
  (forall k c v, (k, c) ∈ schema -> data !! k = Some v ->
     is_ok (convert c v) = true) ->
  exists vec, fields data schema = Ok vec.
Proof.
  induction schema as [|[k c] schema IH]; intros Hp; simpl; [eauto|].
  assert (Hk : exists x, field data (k, c) = Ok x).
  { destruct (data !! k) as [v|] eqn:E.
    - rewrite (field_present _ _ _ _ E).
      specialize (Hp k c v (list_elem_of_here _ _) E).
      destruct (convert c v); [eauto|discriminate].
    - rewrite (field_absent _ _ _ E). eauto. }
  destruct Hk as [x ->]. simpl.
  destruct IH as [vs ->]; [|simpl; eauto].
  intros k' c' v' Hin. apply Hp. now apply list_elem_of_further.
Qed.

Lemma fields_raise schema data k c v :
  (k, c) ∈ schema -> data !! k = Some v -> is_ok (convert c v) = false ->
  exists e, conversion_error e /\ fields data schema = Raise e.
Proof.
  intros Hin Hv Hbad.
  induction schema as [|kc0 schema IH]; [now apply elem_of_nil in Hin|].
  simpl. destruct (field data kc0) as [x0|e0] eqn:E0; simpl.
  - apply elem_of_cons in Hin as [<-|Hin].
    + rewrite (field_present _ _ _ _ Hv) in E0. rewrite E0 in Hbad.
      discriminate.
    + destruct (IH Hin) as (e & He & ->). simpl. eauto.
  - exists e0. split; [|reflexivity].
    destruct kc0 as [k0 c0]. unfold field in E0. simpl in E0.
    eapply convert_error, E0.
Qed.

End Features.


Lemma parsableb_parsable (data : gmap string pyval) :
  parsableb data = true -> parsable data.
Proof.
  unfold parsableb, parsable. rewrite forallb_forall.
  intros Hall k c v Hin Hv.
  apply list_elem_of_In in Hin. specialize (Hall (k, c) Hin).
  simpl in Hall. now rewrite Hv in Hall.
Qed.


(** C10. Position 7 of the feature vector (the eighth entry, the
    six-hour rain intensity) is read from the key ["rain-intensity-6hr"]
    and from no other: when the mapping lacks that key the entry is [0],
    whatever the mapping holds under ["rain-intensity-6-hr"], and when it
    has the key the entry is its value as a float. A vector is built
    whenever the fields present convert. *)
Theorem feature_7_reads_rain_intensity_6hr (data : gmap string pyval) :
  (parsable data -> exists vec, build_features data = Ok vec) /\
  forall vec, build_features data = Ok vec ->
    (data !! "rain-intensity-6hr" = None ->
     vec !! 7%nat = Some (PFloat F64.zero)) /\
    (forall v, data !! "rain-intensity-6hr" = Some v ->
       exists x, py_float v = Ok x /\ vec !! 7%nat = Some (PFloat x)).
Proof.
  split.
  - intros Hp. rewrite build_features_fields. now apply fields_ok.
  - intros vec. rewrite build_features_fields. intros Hvec.
    destruct (fields_lookup _ _ _ Hvec) as [_ Hget].
    destruct (Hget 7%nat ("rain-intensity-6hr", AsFloat) eq_refl)
      as (x & Hx & Hfield).
    apply field_value in Hfield. split.
    + intros Hnone. rewrite Hnone in Hfield. now rewrite Hx, Hfield.
    + intros v Hv. rewrite Hv in Hfield. simpl in Hfield.
      destruct (py_float v) as [y|]; simpl in Hfield; [|discriminate].
      injection Hfield as <-. eauto.
Qed.

Lemma feature_7_reads_rain_intensity_6hr_witness :
  Demo.request !! "rain-intensity-6-hr" = Some (PInt 3) /\
  Demo.request !! "rain-intensity-6hr" = None /\
  exists vec, build_features Demo.request = Ok vec /\
    vec !! 7%nat = Some (PFloat F64.zero).
Proof.
  split; [vm_compute; reflexivity|].
  assert (Hnone : Demo.request !! "rain-intensity-6hr" = None)
    by (vm_compute; reflexivity).
  split; [exact Hnone|].
  destruct (feature_7_reads_rain_intensity_6hr Demo.request) as [Hbuilt Hread].
  destruct Hbuilt as [vec Hvec].
  { apply parsableb_parsable. vm_compute. reflexivity. }
  exists vec. split; [exact Hvec|].
  exact (proj1 (Hread vec Hvec) Hnone).
Defined.

(** ** The route [/predict] *)

Section Predict.

Context {G : Type}.

Implicit Types (st : Server G) (req : request_body).

Lemma guard_loaded st m s :
  model st = Some m -> model_truthy m = true ->
  scaler st = Some s -> scaler_truthy s = true ->
  py_not model_truthy (model st) || py_not scaler_truthy (scaler st) = false.
Proof. intros -> Hm -> Hs. simpl. now rewrite Hm, Hs. Qed.

Lemma guard_unloaded st :
  model st = None \/ scaler st = None ->
  py_not model_truthy (model st) || py_not scaler_truthy (scaler st) = true.
Proof. intros [-> | ->]; simpl; [reflexivity|apply orb_true_r]. Qed.

(** No exception leaves [predict]. *)
Lemma predict_returns st req : exists r, predict st req = Ok r.
Proof.
  unfold predict.
  destruct (py_not _ _ || py_not _ _); [eauto|].
  destruct (infer st req); simpl; eauto.
Qed.

(** The decision on two probabilities that are numbers. *)
Lemma decide_two (p0 p1 : float) :
  F64.is_nan p0 = false -> F64.is_nan p1 = false ->
  decide [p0; p1] =
  Ok (if F64.ltb p0 p1
      then Prediction (class_label 1) (percent p1)
      else Prediction (class_label 0) (percent p0)).
Proof.
  intros H0 H1. unfold decide, np_argmax, py_max. simpl.
  rewrite H0, (not_leb_ltb p0 p1 H0 H1).
  destruct (F64.ltb p0 p1); reflexivity.
Qed.

Lemma startup_models_missing (w : World G) :
  is_ok (unpickle_model w model_path) = false \/
  is_ok (unpickle_scaler w scaler_path) = false ->
  model (startup w) = None /\ scaler (startup w) = None.
Proof.
  unfold startup, load_models.
  destruct (unpickle_model w model_path) as [m|]; simpl;
    destruct (unpickle_scaler w scaler_path) as [s|]; simpl;
    intros [Hm|Hs]; try discriminate; auto.
Qed.

End Predict.



Example predict_three_quarters :
  predict (startup Demo.world) (JsonObject Demo.request) =
    Ok (jsonify (Prediction "Landslide" "75.00%")).
Proof. vm_compute. reflexivity. Qed.

(** C7. When the classifier or the scaler failed to load at start-up,
    both globals are [None] and every request to [/predict], whatever its
    body, is answered with status 503 and the message that the models are
    not loaded. [predict] reads the globals only: nothing is loaded at
    request time and nothing is tried again. *)
Theorem predict_unavailable
  {G : Type} (w : World G) (req : request_body) :
  is_ok (unpickle_model w model_path) = false \/
  is_ok (unpickle_scaler w scaler_path) = false ->
  model (startup w) = None /\ scaler (startup w) = None /\
  predict (startup w) req =
    Ok (jsonify_status
          (Error (Message "Machine learning models are not loaded on the server"))
          503).
Proof.
  intros Hfail. destruct (startup_models_missing w Hfail) as [Hm Hs].
  split; [exact Hm|]. split; [exact Hs|].
  unfold predict. rewrite guard_unloaded by auto. reflexivity.
Qed.

Lemma predict_unavailable_witness :
  is_ok (unpickle_scaler Demo.world_without_scaler scaler_path) = false /\
  predict (startup Demo.world_without_scaler) (JsonObject Demo.request) =
    Ok (jsonify_status
          (Error (Message "Machine learning models are not loaded on the server"))
          503).
Proof.
  split; [reflexivity|].
  apply (predict_unavailable Demo.world_without_scaler (JsonObject Demo.request)).
  right. reflexivity.
Defined.



(** ** The route [/get_geo_data] *)

Section GeoData.

Context {G : Type} `{Geometry G}.

Implicit Types (w : World G) (st : Server G).

(** No exception leaves [get_soil_type]. *)
Lemma get_soil_type_returns (gdf : option (GeoDataFrame G)) (lon lat : float) :
  exists v, get_soil_type gdf lon lat = Ok v.
Proof.
  unfold get_soil_type. destruct gdf as [gdf|]; [|eauto].
  destruct (negb (point_is_valid (mkPoint lon lat))); [eauto|].
  destruct (iloc _ _) as [rows|]; simpl; [|eauto].
  match goal with |- context [List.filter ?t rows] =>
    destruct (List.filter t rows) end; eauto.
Qed.

Lemma get_slope_unloaded w st lon lat :
  slope_tif st = None ->
  get_slope w st lon lat = Ok (PStr "Error: Raster file not loaded on server").
Proof. unfold get_slope. now intros ->. Qed.

Lemma get_slope_exception w st path e lon lat :
  slope_tif st = Some path ->
  (rasterio_open w path ≫= fun src => sample w src lon lat) = Raise e ->
  get_slope w st lon lat = Ok (PStr "Error during processing").
Proof. unfold get_slope. now intros -> ->. Qed.

(** Neither message of [get_slope] is a float literal. *)
Lemma py_float_unloaded_message :
  py_float (PStr "Error: Raster file not loaded on server") = Raise ValueError.
Proof. vm_compute. reflexivity. Qed.

Lemma py_float_exception_message :
  py_float (PStr "Error during processing") = Raise ValueError.
Proof. vm_compute. reflexivity. Qed.

(** The handler converts the slope with [float] before it builds the
    response: a message of [get_slope] makes it raise. *)
Lemma get_geo_data_slope_message w st args lat lon msg e :
  args_get_float args "lat" = Some lat ->
  args_get_float args "lon" = Some lon ->
  get_slope w st lon lat = Ok (PStr msg) ->
  py_float (PStr msg) = Raise e ->
  get_geo_data w st args = Raise e.
Proof.
  unfold get_geo_data. intros -> -> -> He. step.
  destruct (get_soil_type_returns (soil_gdf st) lon lat) as [soil ->].
  step. now rewrite He.
Qed.

(** With a slope or none, the handler answers; whatever the soil
    lookup returned, its messages included, is sent as [soil_type]. *)
Lemma get_geo_data_answers w st args lat lon :
  args_get_float args "lat" = Some lat ->
  args_get_float args "lon" = Some lon ->
  get_slope w st lon lat = Ok PNone \/
  (exists v, get_slope w st lon lat = Ok (PFloat v)) ->
  exists slope soil,
    get_geo_data w st args = Ok (jsonify (GeoData slope soil)).
Proof.
  unfold get_geo_data. intros -> ->.
  destruct (get_soil_type_returns (soil_gdf st) lon lat) as [soil Hsoil].
  intros [-> | [v ->]]; step; rewrite Hsoil; step; cbn [py_float]; step;
    eauto.
Qed.

Lemma get_geo_data_soil_unloaded w st args lat lon :
  args_get_float args "lat" = Some lat ->
  args_get_float args "lon" = Some lon ->
  soil_gdf st = None ->
  get_slope w st lon lat = Ok PNone ->
  get_geo_data w st args =
  Ok (jsonify (GeoData None (Some (PStr "Error: Shapefile not loaded")))).
Proof.
  unfold get_geo_data. intros -> -> Hs ->. rewrite Hs. reflexivity.
Qed.

(** A request without usable coordinates is refused with status 400. *)
Lemma get_geo_data_missing_coordinates w st args :
  args_get_float args "lat" = None \/ args_get_float args "lon" = None ->
  get_geo_data w st args =
  Ok (jsonify_status (Error (Message "Missing or invalid coordinates")) 400).
Proof.
  unfold get_geo_data. intros [-> | ->]; [reflexivity|].
  now destruct (args_get_float args "lat").
Qed.

End GeoData.

(** C9 fails on the code. For a request with coordinates: when the
    raster is not loaded, or opening or sampling it raises, [get_slope]
    returns a message; [get_geo_data] passes it to [float], and the
    [ValueError] of that call leaves the handler. *)
Theorem get_geo_data_slope_failure_escapes
  {G : Type} `{Geometry G} (w : World G) (st : Server G)
  (args : gmap string string) (lat lon : float) :
  args_get_float args "lat" = Some lat ->
  args_get_float args "lon" = Some lon ->
  (slope_tif st = None \/
   exists path e, slope_tif st = Some path /\
     (rasterio_open w path ≫= fun src => sample w src lon lat) = Raise e) ->
  get_geo_data w st args = Raise ValueError.
Proof.
  intros Hlat Hlon [Hnone | (path & e & Hpath & Hraise)].
  - eapply get_geo_data_slope_message; try eassumption.
    + now apply get_slope_unloaded.
    + apply py_float_unloaded_message.
  - eapply get_geo_data_slope_message; try eassumption.
    + eapply get_slope_exception; eassumption.
    + apply py_float_exception_message.
Qed.

Lemma get_geo_data_slope_failure_escapes_witness :
  slope_tif (startup Demo.world_without_raster) = None /\
  get_geo_data Demo.world_without_raster (startup Demo.world_without_raster)
    Demo.query = Raise ValueError.
Proof.
  split; [reflexivity|].
  apply (get_geo_data_slope_failure_escapes
           Demo.world_without_raster (startup Demo.world_without_raster)
           Demo.query (Demo.num 2) (Demo.num 0));
    [vm_compute; reflexivity | vm_compute; reflexivity |].
  left. reflexivity.
Defined.

(** The same query on a server with every resource loaded. *)
Example get_geo_data_query :
  get_geo_data Demo.world (startup Demo.world) Demo.query =
  Ok (jsonify (GeoData (Some (F64.of_decimal false 47 (-1))) (Some (PInt 7)))).
Proof. vm_compute. reflexivity. Qed.

(** ** Two decimals *)

(** The count of hundredths is within half a hundredth of the value. *)
Lemma round_half_even_nearest (num den : Z) :
  0 <= num -> 0 < den ->
  2 * Z.abs (Format.round_half_even num den * den - num) <= den.
Proof.
  intros Hn Hd. unfold Format.round_half_even.
  pose proof (Z.div_mod num den ltac:(lia)) as Hdm.
  pose proof (Z.mod_pos_bound num den Hd) as Hr.
  destruct (Z.compare_spec (2 * (num mod den)) den) as [He|Hl|Hg];
    try destruct (Z.even (num / den)); nia.
Qed.

Lemma hundredths_nearest (m : positive) (e : Z) :
  e < 0 ->
  2 * Z.abs (Format.hundredths m e * 2 ^ (- e) - Zpos m * 100) <= 2 ^ (- e).
Proof.
  intros He. unfold Format.hundredths.
  destruct (Z.leb_spec 0 e); [lia|].
  apply round_half_even_nearest; [lia|].
  apply Z.pow_pos_nonneg; lia.
Qed.

Lemma hundredths_exact (m : positive) (e : Z) :
  0 <= e -> Format.hundredths m e = Zpos m * 2 ^ e * 100.
Proof.
  intros He. unfold Format.hundredths.
  destruct (Z.leb_spec 0 e); [reflexivity|lia].
Qed.

Example format_2f_three_quarters :
  Format.format_2f (F64.mul Demo.three_quarters (F64.of_Z 100)) = "75.00".
Proof. vm_compute. reflexivity. Qed.

Example format_2f_ties_to_even :
  Format.format_2f (F64.of_decimal false 125 (-3)) = "0.12".
Proof. vm_compute. reflexivity. Qed.

(** * Further properties of the module *)

(** ** The soil lookup, whatever the order of the index *)

Section SoilLookupOrder.

Context {G : Type} `{Geometry G}.

Implicit Types (rows : list (row G)) (gdf : GeoDataFrame G) (p : Point).

(** A visited row is a row of the frame, and conversely. *)
Lemma visit_order_elem gdf (r : row G) :
  sindex_built gdf -> In r (visit_order gdf) <-> r ∈ gdf_rows gdf.
Proof.
  intros Hb. rewrite <- list_elem_of_In.
  now rewrite (visit_order_permutation gdf Hb).
Qed.

Lemma first_visited_match_some gdf p r :
  sindex_built gdf -> first_visited_match gdf p = Some r ->
  exists i, gdf_rows gdf !! i = Some r /\ geom_intersects (fst r) p = true.
Proof.
  intros Hb Hfind. unfold first_visited_match in Hfind.
  apply find_some in Hfind as [Hin Hr].
  apply (visit_order_elem gdf r Hb), list_elem_of_lookup in Hin as [i Hi].
  eauto.
Qed.

Lemma first_visited_match_none gdf p :
  sindex_built gdf -> first_visited_match gdf p = None ->
  forall r, r ∈ gdf_rows gdf -> geom_intersects (fst r) p = false.
Proof.
  intros Hb Hfind r Hr. unfold first_visited_match in Hfind.
  apply (find_none _ _ Hfind). now apply visit_order_elem.
Qed.

End SoilLookupOrder.

(** X1. For a frame whose index was built from its geometry column and
    a valid point, [get_soil_type] returns either the [SNUM] attribute
    (or its default) of a polygon of the frame that contains the point, or
    ["Unknown"] when no polygon of the frame contains it: it never
    reports the attribute of a polygon that does not contain the point,
    and never misses a containing polygon. *)
Theorem get_soil_type_sound_and_complete
  {G : Type} `{Geometry G} (gdf : GeoDataFrame G) (lon lat : float) :
  sindex_built gdf -> point_is_valid (mkPoint lon lat) = true ->
  exists v, get_soil_type (Some gdf) lon lat = Ok v /\
    ((exists i r, gdf_rows gdf !! i = Some r /\
        geom_intersects (fst r) (mkPoint lon lat) = true /\
        v = series_get r "SNUM" (PStr "Unknown")) \/
     ((forall r, r ∈ gdf_rows gdf ->
         geom_intersects (fst r) (mkPoint lon lat) = false) /\
      v = PStr "Unknown")).
Proof.
  intros Hb Hv. rewrite (get_soil_type_visits gdf lon lat Hb Hv).
  eexists. split; [reflexivity|].
  destruct (first_visited_match gdf (mkPoint lon lat)) as [r|] eqn:Hfind.
  - left. destruct (first_visited_match_some gdf _ r Hb Hfind) as (i & Hi & Hr).
    exists i, r. auto.
  - right. split; [|reflexivity].
    now apply first_visited_match_none.
Qed.

Lemma get_soil_type_sound_and_complete_witness :
  sindex_built Demo.gdf_west_first /\
  point_is_valid (mkPoint (Demo.num 30) (Demo.num 2)) = true /\
  get_soil_type (Some Demo.gdf_west_first) (Demo.num 30) (Demo.num 2) =
    Ok (PStr "Unknown").
Proof.
  assert (Hb : sindex_built Demo.gdf_west_first)
    by (unfold sindex_built; cbn; apply perm_swap).
  assert (Hv : point_is_valid (mkPoint (Demo.num 30) (Demo.num 2)) = true)
    by reflexivity.
  split; [exact Hb|]. split; [exact Hv|].
  destruct (get_soil_type_sound_and_complete
              Demo.gdf_west_first (Demo.num 30) (Demo.num 2) Hb Hv)
    as (v & -> & [(i & r & Hi & Hr & _) | [_ ->]]); [|reflexivity].
  exfalso. destruct i as [|[|i]]; simpl in Hi; try discriminate;
    injection Hi as <-; vm_compute in Hr; discriminate.
Defined.

(** X2. When exactly one polygon of the frame contains the point,
    [get_soil_type] returns the attribute of that polygon, in whatever
    order the spatial index visits its entries. *)
Theorem get_soil_type_unique_match
  {G : Type} `{Geometry G} (gdf : GeoDataFrame G) (lon lat : float)
  (i : nat) (r : row G) :
  sindex_built gdf -> point_is_valid (mkPoint lon lat) = true ->
  gdf_rows gdf !! i = Some r ->
  geom_intersects (fst r) (mkPoint lon lat) = true ->
  (forall j r', j <> i -> gdf_rows gdf !! j = Some r' ->
     geom_intersects (fst r') (mkPoint lon lat) = false) ->
  get_soil_type (Some gdf) lon lat = Ok (series_get r "SNUM" (PStr "Unknown")).
Proof.
  intros Hb Hv Hi Hr Hothers.
  rewrite (get_soil_type_visits gdf lon lat Hb Hv).
  destruct (first_visited_match gdf (mkPoint lon lat)) as [r'|] eqn:Hfind.
  - destruct (first_visited_match_some gdf _ r' Hb Hfind) as (j & Hj & Hr').
    destruct (Nat.eq_dec j i) as [->|Hne].
    + unfold row in *. rewrite Hi in Hj. now injection Hj as <-.
    + rewrite (Hothers j r' Hne Hj) in Hr'. discriminate.
  - pose proof (first_visited_match_none gdf _ Hb Hfind r) as Hnone.
    rewrite Hnone in Hr; [discriminate|].
    eapply list_elem_of_lookup_2, Hi.
Qed.

Lemma get_soil_type_unique_match_witness :
  get_soil_type (Some Demo.gdf_west_first) (Demo.num 1) (Demo.num 1) =
    Ok (PInt 7) /\
  get_soil_type (Some Demo.gdf_file_order) (Demo.num 1) (Demo.num 1) =
    Ok (PInt 7).
Proof.
  assert (Hothers : forall (j : nat) (r' : row Rect), j <> 1%nat ->
            Demo.rows !! j = Some r' ->
            geom_intersects (fst r') (mkPoint (Demo.num 1) (Demo.num 1)) = false).
  { intros [|[|j]] r' Hne Hj; simpl in Hj; try discriminate.
    - injection Hj as <-. reflexivity.
    - now contradict Hne. }
  split.
  - rewrite (get_soil_type_unique_match Demo.gdf_west_first
               (Demo.num 1) (Demo.num 1) 1 (Demo.west, {[ "SNUM" := PInt 7 ]}));
      try reflexivity; try exact Hothers.
    unfold sindex_built. cbn. apply perm_swap.
  - rewrite (get_soil_type_unique_match Demo.gdf_file_order
               (Demo.num 1) (Demo.num 1) 1 (Demo.west, {[ "SNUM" := PInt 7 ]}));
      try reflexivity; try exact Hothers.
    unfold sindex_built. reflexivity.
Defined.

(** X3. The attribute is read with a default: when no polygon that
    contains the point carries an [SNUM] attribute, [get_soil_type]
    returns ["Unknown"], the same value as for a point in no polygon. *)
Theorem get_soil_type_unknown_without_snum
  {G : Type} `{Geometry G} (gdf : GeoDataFrame G) (lon lat : float) :
  sindex_built gdf -> point_is_valid (mkPoint lon lat) = true ->
  (forall r, r ∈ gdf_rows gdf ->
     geom_intersects (fst r) (mkPoint lon lat) = true ->
     snd r !! "SNUM" = None) ->
  get_soil_type (Some gdf) lon lat = Ok (PStr "Unknown").
Proof.
  intros Hb Hv Hnone. rewrite (get_soil_type_visits gdf lon lat Hb Hv).
  destruct (first_visited_match gdf (mkPoint lon lat)) as [r|] eqn:Hfind;
    [|reflexivity].
  destruct (first_visited_match_some gdf _ r Hb Hfind) as (i & Hi & Hr).
  unfold attribute_of, series_get.
  rewrite (Hnone r); [reflexivity| |exact Hr].
  eapply list_elem_of_lookup_2, Hi.
Qed.

Lemma get_soil_type_unknown_without_snum_witness :
  geom_intersects Demo.west (mkPoint (Demo.num 1) (Demo.num 1)) = true /\
  get_soil_type (Some Demo.gdf_without_snum) (Demo.num 1) (Demo.num 1) =
    Ok (PStr "Unknown").
Proof.
  split; [reflexivity|].
  apply (get_soil_type_unknown_without_snum Demo.gdf_without_snum);
    [unfold sindex_built; reflexivity | reflexivity |].
  intros r Hr _. apply list_elem_of_In in Hr.
  destruct Hr as [<-|[]]. vm_compute. reflexivity.
Defined.

(** ** What a result of [get_slope] tells *)

Section SlopeResults.

Context {G : Type} `{Geometry G}.

Implicit Types (w : World G) (st : Server G) (src : RasterDataset).

Lemma ltb_nan_r (a : float) : F64.ltb a F64.nan = false.
Proof. destruct a; reflexivity. Qed.

(** For numbers, [a <= b] is the negation of [b < a]. *)
Lemma leb_negb_ltb (a b : float) :
  F64.is_nan a = false -> F64.is_nan b = false ->
  F64.leb a b = negb (F64.ltb b a).
Proof.
  intros Ha Hb. rewrite <- (not_leb_ltb b a Hb Ha). now rewrite negb_involutive.
Qed.

Lemma ltb_irrefl (a : float) : F64.ltb a a = false.
Proof.
  destruct (F64.is_nan a) eqn:Ha.
  - destruct a; try discriminate. reflexivity.
  - unfold F64.ltb, SFltb. now rewrite SFcompare_refl.
Qed.

(** The result of [get_slope] once the raster is open. *)
Lemma get_slope_sample w st path src lon lat v :
  slope_tif st = Some path -> rasterio_open w path = Ok src ->
  sample w src lon lat = Ok v -> get_slope w st lon lat = Ok v.
Proof.
  intros Hp Ho Hs. rewrite (get_slope_open _ _ _ _ _ _ Hp Ho), Hs. reflexivity.
Qed.

Lemma get_slope_sample_raise w st path src lon lat e :
  slope_tif st = Some path -> rasterio_open w path = Ok src ->
  sample w src lon lat = Raise e ->
  get_slope w st lon lat = Ok (PStr "Error during processing").
Proof.
  intros Hp Ho Hs. rewrite (get_slope_open _ _ _ _ _ _ Hp Ho), Hs. reflexivity.
Qed.

End SlopeResults.

(** X4. A float returned by [get_slope] is the value of a pixel it
    read: the raster was loaded and opened, the point converted and
    passed the bounds test, its pixel indices lie on the grid, and the
    value read there is neither nan nor the nodata value of the
    dataset. *)
Theorem get_slope_float_is_grid_pixel
  {G : Type} `{Geometry G} (w : World G) (st : Server G)
  (lon lat v : float) :
  get_slope w st lon lat = Ok (PFloat v) ->
  exists path src x y r c,
    slope_tif st = Some path /\ rasterio_open w path = Ok src /\
    convert_coords w lon lat (ds_crs src) = Ok (x, y) /\
    in_bounds src x y = true /\
    ds_index src x y = Ok (r, c) /\ in_grid src r c = true /\
    ds_read src r c = Ok v /\
    F64.is_nan v = false /\
    (forall nodata, ds_nodata src = Some nodata -> F64.eqb v nodata = false).
Proof.
  unfold get_slope. intros Hs.
  destruct (slope_tif st) as [path|] eqn:Hp; [|discriminate].
  destruct (rasterio_open w path) as [src|e] eqn:Ho; simpl in Hs; [|discriminate].
  unfold sample in Hs.
  destruct (convert_coords w lon lat (ds_crs src)) as [[x y]|e] eqn:Hc;
    simpl in Hs; [|discriminate].
  destruct (in_bounds src x y) eqn:Hb; simpl in Hs; [|discriminate].
  destruct (ds_index src x y) as [[r c]|e] eqn:Hi; simpl in Hs; [|discriminate].
  destruct (in_grid src r c) eqn:Hg; [|discriminate].
  destruct (ds_read src r c) as [v'|e] eqn:Hv; simpl in Hs; [|discriminate].
  destruct (is_missing src v') eqn:Hm; simpl in Hs; [discriminate|].
  injection Hs as <-.
  exists path, src, x, y, r, c. repeat (split; [assumption || reflexivity|]).
  unfold is_missing in Hm. apply orb_false_iff in Hm as [Hnd Hnan].
  split; [exact Hnan|].
  intros nodata Hn. now rewrite Hn in Hnd.
Qed.

Lemma get_slope_float_is_grid_pixel_witness :
  get_slope Demo.world (startup Demo.world) (Demo.num 2) (Demo.num 1) =
    Ok (PFloat (Demo.num 3)) /\
  exists r c, Demo.read_pixel r c = Ok (Demo.num 3) /\
    in_grid Demo.raster r c = true.
Proof.
  assert (Hs : get_slope Demo.world (startup Demo.world) (Demo.num 2) (Demo.num 1) =
               Ok (PFloat (Demo.num 3))) by reflexivity.
  split; [exact Hs|].
  destruct (get_slope_float_is_grid_pixel _ _ _ _ _ Hs)
    as (path & src & x & y & r & c & _ & Ho & _ & _ & _ & Hg & Hv & _).
  injection Ho as <-. exists r, c. split; [exact Hv|exact Hg].
Defined.

(** X5. [None] from [get_slope] means that the raster was loaded and
    opened and the point converted, and that the point failed the bounds
    test, or its pixel indices are off the grid, or the pixel read is
    nodata or nan. A failure to open, convert, index or read never gives
    [None]. *)
Theorem get_slope_none_is_no_data
  {G : Type} `{Geometry G} (w : World G) (st : Server G) (lon lat : float) :
  get_slope w st lon lat = Ok PNone ->
  exists path src x y,
    slope_tif st = Some path /\ rasterio_open w path = Ok src /\
    convert_coords w lon lat (ds_crs src) = Ok (x, y) /\
    (in_bounds src x y = false \/
     exists r c, ds_index src x y = Ok (r, c) /\
       (in_grid src r c = false \/
        exists v, ds_read src r c = Ok v /\ is_missing src v = true)).
Proof.
  unfold get_slope. intros Hs.
  destruct (slope_tif st) as [path|] eqn:Hp; [|discriminate].
  destruct (rasterio_open w path) as [src|e] eqn:Ho; simpl in Hs; [|discriminate].
  unfold sample in Hs.
  destruct (convert_coords w lon lat (ds_crs src)) as [[x y]|e] eqn:Hc;
    simpl in Hs; [|discriminate].
  exists path, src, x, y. repeat (split; [assumption || reflexivity|]).
  destruct (in_bounds src x y) eqn:Hb; simpl in Hs; [|now left].
  right.
  destruct (ds_index src x y) as [[r c]|e] eqn:Hi; simpl in Hs; [|discriminate].
  exists r, c. split; [assumption || reflexivity|].
  destruct (in_grid src r c) eqn:Hg; [|now left].
  right.
  destruct (ds_read src r c) as [v|e] eqn:Hv; simpl in Hs; [|discriminate].
  exists v. split; [assumption || reflexivity|].
  destruct (is_missing src v); [reflexivity|discriminate].
Qed.

Lemma get_slope_none_is_no_data_witness :
  get_slope Demo.world (startup Demo.world) (Demo.num 2) (Demo.num 2) = Ok PNone /\
  exists r c v, Demo.read_pixel r c = Ok v /\ is_missing Demo.raster v = true.
Proof.
  assert (Hs : get_slope Demo.world (startup Demo.world) (Demo.num 2) (Demo.num 2) =
               Ok PNone) by reflexivity.
  split; [exact Hs|].
  destruct (get_slope_none_is_no_data _ _ _ _ Hs)
    as (path & src & x & y & _ & Ho & Hc & Hcase).
  injection Ho as <-. injection Hc as <- <-.
  destruct Hcase as [Hb | (r & c & Hi & [Hg | (v & Hv & Hm)])].
  - vm_compute in Hb. discriminate.
  - vm_compute in Hi. injection Hi as <- <-. vm_compute in Hg. discriminate.
  - exists r, c, v. split; [exact Hv|exact Hm].
Defined.

(** X6. With the raster loaded at start-up, an exception at any step of
    the sampling (opening the file, building the transformer, computing
    the pixel indices, reading the pixel) is caught in [get_slope], which
    returns the message ["Error during processing"]. *)
Theorem get_slope_reports_exception
  {G : Type} `{Geometry G} (w : World G) (st : Server G) (path : string)
  (lon lat : float) :
  slope_tif st = Some path ->
  (is_ok (rasterio_open w path) = false \/
   exists src, rasterio_open w path = Ok src /\
     (is_ok (convert_coords w lon lat (ds_crs src)) = false \/
      exists x y, convert_coords w lon lat (ds_crs src) = Ok (x, y) /\
        in_bounds src x y = true /\
        (is_ok (ds_index src x y) = false \/
         exists r c, ds_index src x y = Ok (r, c) /\
           in_grid src r c = true /\ is_ok (ds_read src r c) = false))) ->
  get_slope w st lon lat = Ok (PStr "Error during processing").
Proof.
  intros Hp Hcase. unfold get_slope. rewrite Hp.
  destruct Hcase as [Ho | (src & Ho & Hcase)].
  - destruct (rasterio_open w path); [discriminate|reflexivity].
  - rewrite Ho. simpl. unfold sample.
    destruct Hcase as [Hc | (x & y & Hc & Hb & Hcase)].
    + destruct (convert_coords w lon lat (ds_crs src)); [discriminate|reflexivity].
    + rewrite Hc. simpl. rewrite Hb. simpl.
      destruct Hcase as [Hi | (r & c & Hi & Hg & Hv)].
      * destruct (ds_index src x y); [discriminate|reflexivity].
      * rewrite Hi. simpl. rewrite Hg.
        destruct (ds_read src r c); [discriminate|reflexivity].
Qed.

(** The raster opened at start-up and is gone when the request comes. *)
Lemma get_slope_reports_exception_witness :
  slope_tif (startup Demo.world) = Some slope_tif_path /\
  get_slope Demo.world_without_raster (startup Demo.world)
    (Demo.num 2) (Demo.num 1) = Ok (PStr "Error during processing").
Proof.
  split; [reflexivity|].
  apply (get_slope_reports_exception Demo.world_without_raster
           (startup Demo.world) slope_tif_path); [reflexivity|].
  left. reflexivity.
Defined.

(** X7. A point on which the projection fails has no slope: with the
    raster open, its right edge finite and a transformer for its
    reference system, [get_slope] returns [None] wherever the projection
    reports an error for the point. *)
Theorem get_slope_null_when_projection_fails
  {G : Type} `{Geometry G} (w : World G) (st : Server G) (path : string)
  (src : RasterDataset) (t : Transformer) (lon lat : float) :
  slope_tif st = Some path -> rasterio_open w path = Ok src ->
  transformer_from_crs w (ds_crs src) = Ok t ->
  proj_trans t lon lat = None ->
  F64.is_finite (ds_right src) = true ->
  get_slope w st lon lat = Ok PNone.
Proof.
  intros Hp Ho Ht Hfail Hr.
  apply (get_slope_sample w st path src); [assumption..|].
  apply (sample_outside w src lon lat F64.inf F64.inf).
  - rewrite (convert_coords_ok _ _ _ _ _ Ht). unfold transform. now rewrite Hfail.
  - now apply in_bounds_inf.
Qed.

Lemma get_slope_null_when_projection_fails_witness :
  proj_trans Demo.geographic (Demo.num 200) (Demo.num 95) = None /\
  get_slope Demo.world (startup Demo.world) (Demo.num 200) (Demo.num 95) =
    Ok PNone.
Proof.
  split; [reflexivity|].
  apply (get_slope_null_when_projection_fails Demo.world (startup Demo.world)
           slope_tif_path Demo.raster Demo.geographic); reflexivity.
Defined.

(** X8. For coordinates and bounds that are numbers, the bounds test of
    [get_slope] fails exactly when the point lies strictly beyond one of
    the four edges; a point on an edge passes it, so the corners of the
    bounds rectangle do. *)
Theorem in_bounds_inclusive
  (src : RasterDataset) (x y : float) :
  F64.is_nan x = false -> F64.is_nan y = false ->
  F64.is_nan (ds_left src) = false -> F64.is_nan (ds_right src) = false ->
  F64.is_nan (ds_bottom src) = false -> F64.is_nan (ds_top src) = false ->
  in_bounds src x y = negb (outside_bounds src x y) /\
  (F64.leb (ds_left src) (ds_right src) = true ->
   F64.leb (ds_bottom src) (ds_top src) = true ->
   in_bounds src (ds_left src) (ds_top src) = true /\
   in_bounds src (ds_right src) (ds_bottom src) = true).
Proof.
  intros Hx Hy Hl Hr Hb Ht. unfold in_bounds, outside_bounds. split.
  - rewrite (leb_negb_ltb _ _ Hl Hx), (leb_negb_ltb _ _ Hx Hr),
      (leb_negb_ltb _ _ Hb Hy), (leb_negb_ltb _ _ Hy Ht).
    destruct (F64.ltb x (ds_left src)), (F64.ltb (ds_right src) x),
      (F64.ltb y (ds_bottom src)), (F64.ltb (ds_top src) y); reflexivity.
  - intros Hlr Hbt.
    rewrite !leb_refl, Hlr, Hbt by assumption. split; reflexivity.
Qed.

Lemma in_bounds_inclusive_witness :
  in_bounds Demo.raster (Demo.num 3) (Demo.num 2) = true /\
  outside_bounds Demo.raster (Demo.num 3) (Demo.num 2) = false.
Proof.
  destruct (in_bounds_inclusive Demo.raster (Demo.num 3) (Demo.num 2))
    as [Hcompl _]; try reflexivity.
  assert (Hout : outside_bounds Demo.raster (Demo.num 3) (Demo.num 2) = false)
    by reflexivity.
  rewrite Hcompl, Hout. split; reflexivity.
Defined.

(** ** The answers of [/get_geo_data] *)





(** ** The feature vector and the answers of [/predict] *)

Section FeatureFields.

Implicit Types (data : gmap string pyval) (schema : list (string * conversion)).

Lemma fields_agree schema data data' :
  (forall k c, (k, c) ∈ schema -> data !! k = data' !! k) ->
  fields data schema = fields data' schema.
Proof.
  induction schema as [|[k c] schema IH]; intros Hagree; [reflexivity|].
  assert (Hrest : fields data schema = fields data' schema).
  { apply IH. intros k' c' Hin. apply (Hagree k' c').
    now apply list_elem_of_further. }
  cbn [fields]. unfold field, data_get. cbn [fst snd].
  now rewrite (Hagree k c (list_elem_of_here _ _)), Hrest.
Qed.

Lemma fields_first_error schema data i kc e :
  schema !! i = Some kc -> field data kc = Raise e ->
  (forall j kc', (j < i)%nat -> schema !! j = Some kc' ->
     is_ok (field data kc') = true) ->
  fields data schema = Raise e.
Proof.
  revert i. induction schema as [|kc0 schema IH]; intros i Hi He Hbefore;
    [discriminate|].
  cbn [fields]. destruct i as [|i]; simpl in Hi.
  - injection Hi as ->. now rewrite He.
  - pose proof (Hbefore 0%nat kc0 ltac:(lia) eq_refl) as H0.
    destruct (field data kc0); [|discriminate]. step.
    rewrite (IH i Hi He); [reflexivity|].
    intros j kc' Hj Hkc'. apply (Hbefore (S j) kc'); [lia|exact Hkc'].
Qed.

End FeatureFields.

(** X11. [predict] reads the fifteen keys of its schema and nothing
    else: two request mappings that agree on those keys give the same
    feature vector (or the same error), whatever other keys they hold. *)
Theorem build_features_ignores_other_keys (data data' : gmap string pyval) :
  (forall k c, (k, c) ∈ feature_schema -> data !! k = data' !! k) ->
  build_features data = build_features data'.
Proof.
  intros Hagree. rewrite !build_features_fields. now apply fields_agree.
Qed.

Lemma build_features_ignores_other_keys_witness :
  Demo.request_with_note !! "note" = Some (PStr "field survey") /\
  build_features Demo.request_with_note = build_features Demo.request.
Proof.
  split; [vm_compute; reflexivity|].
  apply build_features_ignores_other_keys.
  intros k c Hin. unfold Demo.request_with_note.
  apply lookup_insert_ne. intros <-.
  apply list_elem_of_In in Hin. vm_compute in Hin.
  repeat (destruct Hin as [Hin|Hin]; [discriminate|]). exact Hin.
Defined.

Section FieldErrors.

Context {G : Type}.

Lemma convert_none c : convert c PNone = Raise TypeError.
Proof. destruct c; reflexivity. Qed.

Lemma predict_field_error (st : Server G) (data : gmap string pyval)
  (m : Model) (s : Scaler) (i : nat) (k : string) (c : conversion) (e : exn) :
  model st = Some m -> model_truthy m = true ->
  scaler st = Some s -> scaler_truthy s = true ->
  feature_schema !! i = Some (k, c) ->
  convert c (data_get data k) = Raise e ->
  (forall j k' c', (j < i)%nat -> feature_schema !! j = Some (k', c') ->
     is_ok (convert c' (data_get data k')) = true) ->
  build_features data = Raise e /\
  predict st (JsonObject data) = Ok (jsonify_status (Error (StrOfExn e)) 400).
Proof.
  intros Hm Hmt Hs Hst Hi He Hbefore.
  assert (Hraise : build_features data = Raise e).
  { rewrite build_features_fields.
    apply (fields_first_error feature_schema data i (k, c) e Hi He).
    intros j [k' c'] Hj Hkc'. exact (Hbefore j k' c' Hj Hkc'). }
  split; [exact Hraise|].
  unfold predict. rewrite (guard_loaded st m s Hm Hmt Hs Hst).
  unfold infer. step. rewrite Hraise. reflexivity.
Qed.

End FieldErrors.



(** X13. The default [0] stands in for an absent key only. A field of
    the schema that is present with the value [null] is passed to [int]
    or [float], which raises a [TypeError]: when the fields before it
    convert, [predict] answers 400. *)
Theorem predict_null_field
  {G : Type} (st : Server G) (data : gmap string pyval)
  (m : Model) (s : Scaler) (i : nat) (k : string) (c : conversion) :
  model st = Some m -> model_truthy m = true ->
  scaler st = Some s -> scaler_truthy s = true ->
  feature_schema !! i = Some (k, c) ->
  data !! k = Some PNone ->
  (forall j k' c', (j < i)%nat -> feature_schema !! j = Some (k', c') ->
     is_ok (convert c' (data_get data k')) = true) ->
  predict st (JsonObject data) =
    Ok (jsonify_status (Error (StrOfExn TypeError)) 400).
Proof.
  intros Hm Hmt Hs Hst Hi Hnull Hbefore.
  apply (predict_field_error st data m s i k c TypeError); try assumption.
  unfold data_get. rewrite Hnull. apply convert_none.
Qed.

Lemma predict_null_field_witness :
  Demo.request_null_slope !! "slope" = Some PNone /\
  predict (startup Demo.world) (JsonObject Demo.request_null_slope) =
    Ok (jsonify_status (Error (StrOfExn TypeError)) 400).
Proof.
  assert (Hnull : Demo.request_null_slope !! "slope" = Some PNone)
    by (vm_compute; reflexivity).
  split; [exact Hnull|].
  refine (predict_null_field (startup Demo.world) Demo.request_null_slope
            (Demo.constant_model Demo.quarter Demo.three_quarters)
            Demo.the_scaler 1 "slope" AsFloat
            eq_refl eq_refl eq_refl eq_refl eq_refl Hnull _).
  intros [|j] k' c' Hj Hkc'; [|lia].
  injection Hkc' as <- <-. vm_compute. reflexivity.
Defined.

(** A step of a handler in a hypothesis. *)
Ltac step_in H := cbn [mbind result_bind try_except] in H.

Section PredictAnswers.

Context {G : Type}.

Implicit Types (st : Server G) (req : request_body).

(** A result of the [try] block is a prediction. *)
Lemma infer_ok st req r :
  infer st req = Ok r ->
  exists k top, r = jsonify (Prediction (class_label k) (percent top)).
Proof.
  unfold infer. intros Hr.
  destruct req as [data| |]; step_in Hr; try discriminate.
  destruct (build_features data) as [features|]; step_in Hr; [|discriminate].
  destruct (loaded (scaler st)) as [s|]; step_in Hr; [|discriminate].
  destruct (scaler_transform s [features]) as [scaled|]; step_in Hr;
    [|discriminate].
  destruct (loaded (model st)) as [m|]; step_in Hr; [|discriminate].
  destruct (model_predict_proba m scaled) as [[|p rest]|]; step_in Hr;
    try discriminate.
  unfold decide in Hr.
  destruct (np_argmax p) as [k|]; step_in Hr; [|discriminate].
  destruct (py_max p) as [top|]; step_in Hr; [|discriminate].
  injection Hr as <-. eauto.
Qed.

(** What [predict] answers once the classifier has given the rows of
    probabilities. *)
Lemma predict_on_probabilities st data m s features scaled p rest :
  model st = Some m -> model_truthy m = true ->
  scaler st = Some s -> scaler_truthy s = true ->
  build_features data = Ok features ->
  scaler_transform s [features] = Ok scaled ->
  model_predict_proba m scaled = Ok (p :: rest) ->
  predict st (JsonObject data) =
  try_except (b ← decide p; Ok (jsonify b))
    (fun e => Ok (jsonify_status (Error (StrOfExn e)) 400)).
Proof.
  intros Hm Hmt Hs Hst Hf Hsc Hpr.
  unfold predict. rewrite (guard_loaded st m s Hm Hmt Hs Hst).
  unfold infer. step. rewrite Hf. step. rewrite Hs. cbn [loaded]. step.
  rewrite Hsc. step. rewrite Hm. cbn [loaded]. step. rewrite Hpr. reflexivity.
Qed.

End PredictAnswers.

(** X14. No exception leaves [predict], and its answer has one of three
    forms: status 503 with the message that the models are not loaded,
    exactly when the test on the two globals fails; status 400 with the
    text of the exception raised in the [try] block; or status 200 with a
    label that is ["Landslide"] or ["No Landslide"] and a confidence
    ending in a percent sign. *)
Theorem predict_answers
  {G : Type} (st : Server G) (req : request_body) :
  exists b code, predict st req = Ok (mkResponse b code) /\
    ((code = 503 /\
      b = Error (Message "Machine learning models are not loaded on the server") /\
      py_not model_truthy (model st) || py_not scaler_truthy (scaler st) = true) \/
     (code = 400 /\
      py_not model_truthy (model st) || py_not scaler_truthy (scaler st) = false /\
      exists e, b = Error (StrOfExn e) /\ infer st req = Raise e) \/
     (code = 200 /\
      py_not model_truthy (model st) || py_not scaler_truthy (scaler st) = false /\
      exists label top,
        (label = "Landslide" \/ label = "No Landslide") /\
        b = Prediction label
              (Format.format_2f (F64.mul top (F64.of_Z 100)) ++ "%"))).
Proof.
  unfold predict.
  destruct (py_not model_truthy (model st) || py_not scaler_truthy (scaler st))
    eqn:Hguard.
  - eexists _, _. split; [reflexivity|]. left. auto.
  - destruct (infer st req) as [r|e] eqn:Hr; cbn [try_except].
    + destruct (infer_ok st req r Hr) as (k & top & ->).
      eexists _, _. split; [reflexivity|]. right. right.
      split; [reflexivity|]. split; [reflexivity|].
      exists (class_label k), top. split; [|reflexivity].
      unfold class_label. destruct (Nat.eqb k 1); auto.
    + eexists _, _. split; [reflexivity|]. right. left.
      split; [reflexivity|]. split; [reflexivity|]. eauto.
Qed.

(** X15. The two pickles are loaded under one [try]: after start-up
    the classifier and the scaler are both present or both [None]. If the
    classifier loads and the scaler does not, the classifier is dropped
    too; both are kept exactly when both loaded. *)
Theorem startup_models_all_or_nothing
  {G : Type} (w : World G) :
  (model (startup w) = None <-> scaler (startup w) = None) /\
  (forall m, unpickle_model w model_path = Ok m ->
     is_ok (unpickle_scaler w scaler_path) = false ->
     model (startup w) = None) /\
  (forall m s, unpickle_model w model_path = Ok m ->
     unpickle_scaler w scaler_path = Ok s ->
     model (startup w) = Some m /\ scaler (startup w) = Some s).
Proof.
  unfold startup, load_models.
  destruct (unpickle_model w model_path) as [m0|]; cbn [mbind result_bind];
    destruct (unpickle_scaler w scaler_path) as [s0|]; cbn [mbind result_bind];
    cbn [model scaler]; repeat split; try discriminate; try congruence;
    intros; simplify_eq; auto.
Qed.

Lemma startup_models_all_or_nothing_witness :
  is_ok (unpickle_model Demo.world_without_scaler model_path) = true /\
  model (startup Demo.world_without_scaler) = None /\
  scaler (startup Demo.world_without_scaler) = None.
Proof.
  split; [reflexivity|].
  destruct (startup_models_all_or_nothing Demo.world_without_scaler)
    as (Hboth & Hdropped & _).
  assert (Hm : model (startup Demo.world_without_scaler) = None).
  { apply (Hdropped (Demo.constant_model Demo.quarter Demo.three_quarters));
      reflexivity. }
  split; [exact Hm|]. apply Hboth, Hm.
Defined.

(** X16. A nan among the probabilities separates the label from the
    confidence. When the classifier answers with a number [p0] for class 0
    and nan for class 1, [numpy.argmax] points at the nan and the label is
    ["Landslide"], while [max] keeps [p0] and the confidence is that of
    class 0. *)
Theorem predict_nan_probability
  {G : Type} (st : Server G) (data : gmap string pyval)
  (m : Model) (s : Scaler) (features : list pyval)
  (features_scaled rest : list (list float)) (p0 : float) :
  model st = Some m -> model_truthy m = true ->
  scaler st = Some s -> scaler_truthy s = true ->
  build_features data = Ok features ->
  scaler_transform s [features] = Ok features_scaled ->
  model_predict_proba m features_scaled = Ok ([p0; F64.nan] :: rest) ->
  F64.is_nan p0 = false ->
  predict st (JsonObject data) =
    Ok (jsonify
          (Prediction "Landslide"
             (Format.format_2f (F64.mul p0 (F64.of_Z 100)) ++ "%"))).
Proof.
  intros Hm Hmt Hs Hst Hf Hsc Hpr H0.
  rewrite (predict_on_probabilities st data m s features features_scaled
             [p0; F64.nan] rest Hm Hmt Hs Hst Hf Hsc Hpr).
  unfold decide, np_argmax, py_max. cbn [argmax_from fold_left].
  rewrite H0, leb_nan_l, ltb_nan_r. reflexivity.
Qed.

Lemma predict_nan_probability_witness :
  predict (startup (Demo.world_with (Demo.constant_model Demo.quarter F64.nan)))
    (JsonObject Demo.request) =
  Ok (jsonify (Prediction "Landslide" "25.00%")).
Proof.
  rewrite (predict_nan_probability
             (startup (Demo.world_with (Demo.constant_model Demo.quarter F64.nan)))
             Demo.request (Demo.constant_model Demo.quarter F64.nan)
             Demo.the_scaler Demo.features Demo.features_scaled [] Demo.quarter);
    [| reflexivity | reflexivity | reflexivity | reflexivity
     | vm_compute; reflexivity ..].
  vm_compute. reflexivity.
Defined.

(** X17. The test of [predict] is on the truth value of the two
    globals, not on their being [None]: a classifier or scaler that
    loaded and is false as a condition is answered with the same 503 as
    a missing one, for every request. *)
Theorem predict_falsy_artifact
  {G : Type} (st : Server G) (req : request_body) :
  (exists m, model st = Some m /\ model_truthy m = false) \/
  (exists s, scaler st = Some s /\ scaler_truthy s = false) ->
  predict st req =
    Ok (jsonify_status
          (Error (Message "Machine learning models are not loaded on the server"))
          503).
Proof.
  intros Hfalsy. unfold predict.
  assert (py_not model_truthy (model st) || py_not scaler_truthy (scaler st)
          = true) as ->; [|reflexivity].
  destruct Hfalsy as [(m & -> & Hm) | (s & -> & Hs)]; cbn [py_not].
  - now rewrite Hm.
  - rewrite Hs. apply orb_true_r.
Qed.

Lemma predict_falsy_artifact_witness :
  model (startup (Demo.world_with Demo.empty_model)) = Some Demo.empty_model /\
  predict (startup (Demo.world_with Demo.empty_model)) (JsonObject Demo.request) =
    Ok (jsonify_status
          (Error (Message "Machine learning models are not loaded on the server"))
          503).
Proof.
  split; [reflexivity|].
  apply (predict_falsy_artifact (startup (Demo.world_with Demo.empty_model))).
  left. exists Demo.empty_model. split; reflexivity.
Defined.

(** X18. [/predict] depends on the two pickles alone: two start-ups
    that load the same classifier and scaler answer every request alike,
    whether or not the shapefile and the raster loaded. *)
Theorem predict_independent_of_geodata
  {G : Type} (w w' : World G) (req : request_body) :
  unpickle_model w model_path = unpickle_model w' model_path ->
  unpickle_scaler w scaler_path = unpickle_scaler w' scaler_path ->
  predict (startup w) req = predict (startup w') req.
Proof.
  intros Hm Hs.
  assert (Hmodel : model (startup w) = model (startup w')).
  { unfold startup, load_models. rewrite Hm, Hs.
    now destruct (_ ≫= _) as [[] |]. }
  assert (Hscaler : scaler (startup w) = scaler (startup w')).
  { unfold startup, load_models. rewrite Hm, Hs.
    now destruct (_ ≫= _) as [[] |]. }
  unfold predict, infer. now rewrite Hmodel, Hscaler.
Qed.

Lemma predict_independent_of_geodata_witness :
  load_slope Demo.world_without_raster = None /\
  predict (startup Demo.world_without_raster) (JsonObject Demo.request) =
    predict (startup Demo.world) (JsonObject Demo.request).
Proof.
  split; [reflexivity|].
  apply (predict_independent_of_geodata Demo.world_without_raster Demo.world);
    reflexivity.
Defined.

(** ** The port *)

Section Port.

Local Open Scope N_scope.

Lemma digit_below_ten (d : N) :
  d < 10 ->
  d = 0 \/ d = 1 \/ d = 2 \/ d = 3 \/ d = 4 \/
  d = 5 \/ d = 6 \/ d = 7 \/ d = 8 \/ d = 9.
Proof. lia. Qed.

Lemma digit_of_digit_char (d : N) :
  d < 10 -> Literal.digit_of (digit_char d) = Some d.
Proof.
  intros Hd.
  destruct (digit_below_ten d Hd) as [->|[->|[->|[->|[->|[->|[->|[->|[->| ->]]]]]]]]];
    reflexivity.
Qed.

Lemma is_space_digit_char (d : N) :
  d < 10 -> Literal.is_space (digit_char d) = false.
Proof.
  intros Hd.
  destruct (digit_below_ten d Hd) as [->|[->|[->|[->|[->|[->|[->|[->|[->| ->]]]]]]]]];
    reflexivity.
Qed.

Lemma sign_digit_char (d : N) (l : list ascii) :
  d < 10 -> Literal.sign (digit_char d :: l) = (false, digit_char d :: l).
Proof.
  intros Hd.
  destruct (digit_below_ten d Hd) as [->|[->|[->|[->|[->|[->|[->|[->|[->| ->]]]]]]]]];
    reflexivity.
Qed.

Lemma digits_tail_digits (ds : list N) :
  Forall (fun d => d < 10) ds ->
  Literal.digits_tail (map digit_char ds) = (ds, []).
Proof.
  induction 1 as [|d ds Hd _ IH]; [reflexivity|].
  cbn [map Literal.digits_tail]. now rewrite (digit_of_digit_char d Hd), IH.
Qed.

Lemma lstrip_digits (d : N) (l : list ascii) :
  d < 10 -> Literal.lstrip (digit_char d :: l) = digit_char d :: l.
Proof.
  intros Hd. cbn [Literal.lstrip]. now rewrite (is_space_digit_char d Hd).
Qed.

Lemma strip_digits (ds : list N) :
  Forall (fun d => d < 10) ds ->
  Literal.strip (map digit_char ds) = map digit_char ds.
Proof.
  intros Hds. unfold Literal.strip.
  assert (Hl : forall ds', Forall (fun d => d < 10) ds' ->
            Literal.lstrip (map digit_char ds') = map digit_char ds').
  { intros ds' H'. destruct H' as [|d ds' Hd _]; [reflexivity|].
    apply lstrip_digits, Hd. }
  rewrite (Hl ds Hds), <- map_rev, (Hl (rev ds)).
  - now rewrite map_rev, rev_involutive.
  - now apply Forall_rev.
Qed.

(** [int] reads a string of decimal digits as the number they write. *)
Lemma parse_int_decimal (ds : list N) :
  ds <> [] -> Forall (fun d => d < 10) ds ->
  Literal.parse_int (decimal ds) = Some (Z.of_N (Literal.value_of ds)).
Proof.
  intros Hne Hds. unfold Literal.parse_int, decimal.
  rewrite list_ascii_of_string_of_list_ascii, (strip_digits ds Hds).
  destruct Hds as [|d ds Hd Hds]; [contradiction|].
  cbn [map]. rewrite (sign_digit_char d _ Hd).
  unfold Literal.digitpart.
  now rewrite (digit_of_digit_char d Hd), (digits_tail_digits ds Hds).
Qed.

End Port.


